(** * CryptoCurrency-Dashboard: the [Home] component of [src/app/page.tsx]

    A shallow embedding of the dashboard's page component: the asset
    records, the search filter, the two fetch functions with their
    success and failure continuations, the number formatting of a card,
    and the render cycle that re-runs the component's effects.

    Conventions.
    - A JavaScript [number] is an IEEE 754 binary64 value: Rocq's
      primitive [float].  Exact decimal output goes through [Prim2SF],
      which exposes sign, mantissa and exponent.
    - A JavaScript string is a [string] of 8-bit characters.
      [toLowerCase] and [toUpperCase] are given on ASCII text, where
      they map the letters A-Z and a-z and nothing else; what is proved
      of the search is proved of ASCII names, symbols and queries
      ([Str.isAscii]).
    - [useState] cells are the fields of [State]; a setter is a function
      on the component's [World]. *)

From Stdlib Require Import Bool Arith ZArith NArith Lia List Ascii String.
From Stdlib Require Import Floats DecimalString DecimalN DecimalPos.
Import ListNotations.

#[local] Set Warnings "-inexact-float".

Open Scope string_scope.

(** ** Strings: [toLowerCase] and [includes] *)

Module Str.

Definition isUpper (c : ascii) : bool :=
  ((65 <=? nat_of_ascii c)%nat && (nat_of_ascii c <=? 90)%nat)%bool.

(** The lower-case partner of an upper-case letter sits 32 code points up. *)
Definition lowerChar (c : ascii) : ascii :=
  if isUpper c then ascii_of_nat (nat_of_ascii c + 32) else c.

(** [String.prototype.toLowerCase], on ASCII text. *)
Fixpoint toLowerCase (s : string) : string :=
  match s with
  | EmptyString => EmptyString
  | String c s' => String (lowerChar c) (toLowerCase s')
  end.

(** [q] is a prefix of [s]. *)
Fixpoint startsWith (s q : string) {struct q} : bool :=
  match q, s with
  | EmptyString, _ => true
  | String _ _, EmptyString => false
  | String a q', String b s' => Ascii.eqb a b && startsWith s' q'
  end.

(** [String.prototype.includes]: [q] occurs in [s] at some position. *)
Fixpoint includes (s q : string) : bool :=
  startsWith s q ||
  match s with
  | EmptyString => false
  | String _ s' => includes s' q
  end.

(** ASCII text: every character is one of the first 128. *)
Definition isAsciiChar (c : ascii) : bool := (nat_of_ascii c <? 128)%nat.

Fixpoint isAscii (s : string) : bool :=
  match s with
  | EmptyString => true
  | String c s' => (isAsciiChar c && isAscii s')%bool
  end.

(** Specification side: what "contains as a case-insensitive substring"
    means, stated without [toLowerCase]. *)

Inductive sameLetter : ascii -> ascii -> Prop :=
| same_char c : sameLetter c c
| upper_lower c : isUpper c = true ->
    sameLetter c (ascii_of_nat (nat_of_ascii c + 32))
| lower_upper c : isUpper c = true ->
    sameLetter (ascii_of_nat (nat_of_ascii c + 32)) c.

Inductive equalIgnoringCase : string -> string -> Prop :=
| eic_nil : equalIgnoringCase EmptyString EmptyString
| eic_cons a b s t : sameLetter a b -> equalIgnoringCase s t ->
    equalIgnoringCase (String a s) (String b t).

Definition containsIgnoringCase (s q : string) : Prop :=
  exists pre mid post, s = pre ++ mid ++ post /\ equalIgnoringCase mid q.

End Str.

(** ** Data model *)

(** [interface Cryptocurrency]. *)
Record Cryptocurrency := {
  id : string;
  symbol : string;
  name : string;
  current_price : float;
  price_change_percentage_24h : float;
  market_cap : float;
  total_volume : float;
  image : string
}.

(** [const CURRENCIES = ["USD", "EUR", "GBP", "JPY"]]: the values the
    currency selector offers, and so the only values [selectedCurrency]
    takes ([useState("USD")], then [setSelectedCurrency(e.target.value)]). *)
Inductive Currency := USD | EUR | GBP | JPY.

Definition CURRENCIES : list Currency := [USD; EUR; GBP; JPY].

Definition code (c : Currency) : string :=
  match c with USD => "USD" | EUR => "EUR" | GBP => "GBP" | JPY => "JPY" end.

(** ** Numbers as text *)

Module Num.

Definition isDigit (c : ascii) : bool :=
  ((48 <=? nat_of_ascii c)%nat && (nat_of_ascii c <=? 57)%nat)%bool.


Fixpoint all (p : ascii -> bool) (s : string) : bool :=
  match s with
  | EmptyString => true
  | String c s' => (p c && all p s')%bool
  end.

(** The decimal digits of a natural number, ["0"] for zero. *)
Definition digitsOf (n : N) : string := NilEmpty.string_of_uint (N.to_uint n).

(** A finite non-zero [float] has magnitude [m * 2^e].  [nearest m e f] is
    the integer [n] for which [n / 10^f] is closest to that magnitude, the
    larger one on a tie (ECMAScript's [toFixed], step "let n be an
    integer for which n / 10^f - x is as close to zero as possible"). *)
Definition nearest (m : positive) (e : Z) (f : nat) : N :=
  let scale := (10 ^ N.of_nat f)%N in
  if (0 <=? e)%Z then (Npos m * 2 ^ Z.to_N e * scale)%N
  else let k := Z.to_N (- e) in
       ((2 * Npos m * scale + 2 ^ k) / 2 ^ (k + 1))%N.

(** [bound <= m * 2^e], decided on integers. *)
Definition reaches (m : positive) (e : Z) (bound : N) : bool :=
  if (0 <=? e)%Z then (bound <=? Npos m * 2 ^ Z.to_N e)%N
  else (bound * 2 ^ Z.to_N (- e) <=? Npos m)%N.

Fixpoint zeros (n : nat) : string :=
  match n with O => "" | S n' => String "0" (zeros n') end.

Fixpoint takeS (n : nat) (s : string) : string :=
  match n, s with
  | S n', String c s' => String c (takeS n' s')
  | _, _ => ""
  end.

Fixpoint dropS (n : nat) (s : string) : string :=
  match n, s with
  | S n', String _ s' => dropS n' s'
  | _, _ => s
  end.

(** Integer and fraction digits of [n / 10^f]: the digits of [n], padded
    with zeros to [f + 1] places, cut before the last [f]. *)
Definition fixedParts (f : nat) (n : N) : string * string :=
  let m := digitsOf n in
  let m := if (length m <=? f)%nat then zeros (f + 1 - length m) ++ m else m in
  let k := length m in
  (takeS (k - f) m, dropS (k - f) m).

Definition fixedNotation (f : nat) (n : N) : string :=
  if (f =? 0)%nat then digitsOf n
  else let (a, b) := fixedParts f n in a ++ "." ++ b.

(** The result of [toFixed]: text in fixed notation, or, where ECMAScript
    hands over to [Number::toString] (a value that is not finite, or of
    magnitude [10^21] and more), that call left as it is. *)
Inductive NumberText :=
| Fixed (text : string)
| NumberToString (x : float).

(** [Number.prototype.toFixed(fractionDigits)]. *)
Definition toFixed (fractionDigits : nat) (x : float) : NumberText :=
  match Prim2SF x with
  | S754_nan | S754_infinity _ => NumberToString x
  | S754_zero _ => Fixed (fixedNotation fractionDigits 0)
  | S754_finite s m e =>
      if reaches m e (10 ^ 21) then NumberToString x
      else Fixed ((if s then "-" else "")
                  ++ fixedNotation fractionDigits (nearest m e fractionDigits))
  end.

(** The range in which [toFixed] answers in fixed notation. *)
Definition inFixedRange (x : float) : bool :=
  match Prim2SF x with
  | S754_zero _ => true
  | S754_finite _ m e => negb (reaches m e (10 ^ 21))
  | _ => false
  end.


(** Digit grouping of the [en-US] locale: a comma before every group of
    three digits that is not the first. *)
Fixpoint grouped (s : string) : string :=
  match s with
  | EmptyString => EmptyString
  | String c s' =>
      String c (if ((0 <? length s') && (length s' mod 3 =? 0))%nat
                then "," ++ grouped s' else grouped s')
  end.

(** The symbol [en-US] shows for each offered currency. *)
Definition currencySymbol (c : Currency) : string :=
  match c with USD => "$" | EUR => "€" | GBP => "£" | JPY => "¥" end.

(** *** The decimal digits of a double

    [Intl.NumberFormat] does not round the binary value of a number.  It
    starts from the decimal digits [Number::toString] prints for it, the
    fewest digits that read back as the same double, and rounds those:
    [1.005] is the double [1.00499999999999989...], written [1.005] and
    so formatted as [1.01].

    A finite non-zero double of magnitude [m * 2^e] is what every real
    number between the midpoints to its two neighbours reads as, the
    midpoints included when [m] is even (round to nearest, ties to
    even).  In units of [2^(e-2)] the magnitude is [4m], the upper
    midpoint [4m + 2] and the lower one [4m - 2], or [4m - 1] at a power
    of two, where the neighbour below is half as far. *)
Definition lowerMidpoint (m : positive) (e : Z) : Z :=
  if ((Z.pos m =? 2 ^ 52) && (-1074 <? e))%Z
  then (4 * Z.pos m - 1)%Z else (4 * Z.pos m - 2)%Z.

Definition upperMidpoint (m : positive) : Z := (4 * Z.pos m + 2)%Z.

(** A decimal [s * 10^p] is compared with [l * 2^(e-2)] on integers:
    both are multiplied by [2^(2-e)] and by [10^-p] where these exponents
    are positive, which gives [s * decimalSide e p] against
    [l * binarySide e p]. *)
Definition decimalSide (e p : Z) : Z := (10 ^ Z.max p 0 * 2 ^ Z.max (2 - e) 0)%Z.

Definition binarySide (e p : Z) : Z := (2 ^ Z.max (e - 2) 0 * 10 ^ Z.max (- p) 0)%Z.

(** [candidate m e p]: among the multiples [s * 10^p] of [10^p] that read
    back as [m * 2^e], the [s] of the one closest to it, if there is any. *)
Definition candidate (m : positive) (e p : Z) : option Z :=
  let a := decimalSide e p in
  let b := binarySide e p in
  let lo := (lowerMidpoint m e * b)%Z in
  let hi := (upperMidpoint m * b)%Z in
  let x := (4 * Z.pos m * b)%Z in
  let closed := Z.even (Z.pos m) in
  let smin := if closed then ((lo + a - 1) / a)%Z else (lo / a + 1)%Z in
  let smax := if closed then (hi / a)%Z else ((hi - 1) / a)%Z in
  let q := (x / a)%Z in
  let r := (x mod a)%Z in
  let s0 := if (2 * r <? a)%Z then q
            else if (a <? 2 * r)%Z then (q + 1)%Z
            else if Z.even q then q else (q + 1)%Z in
  if (smin <=? smax)%Z then Some (Z.min (Z.max s0 smin) smax) else None.

(** The search for the largest [p] with a candidate, downwards from [p];
    at [p = min e 0] the magnitude itself is a multiple of [10^p]. *)
Fixpoint shortestFrom (fuel : nat) (m : positive) (e p : Z) : Z * Z :=
  match candidate m e p with
  | Some s => (s, p)
  | None =>
      match fuel with
      | O => if (0 <=? e)%Z then (Z.pos m * 2 ^ e, 0)%Z
             else (Z.pos m * 5 ^ (- e), e)%Z
      | S fuel' => shortestFrom fuel' m e (p - 1)
      end
  end.

(** [shortest m e = (s, p)]: the digits [s] and the exponent [p] of the
    shortest decimal [s * 10^p] that reads back as [m * 2^e].  The search
    starts at a power of ten above the upper midpoint, which is below
    [2^(e+54)]: [10^(k/3+1) >= 2^k] and [10^-(k/4) >= 2^-k]. *)
Definition shortest (m : positive) (e : Z) : Z * Z :=
  let k := (e + 54)%Z in
  let top := if (0 <=? k)%Z then (k / 3 + 1)%Z else (- (- k / 4))%Z in
  shortestFrom (Z.to_nat (top - Z.min e 0)) m e top.

(** The decimal [s * 10^p] rounded to [f] fraction digits, half-way cases
    away from zero: the integer nearest to [s * 10^(p+f)], the larger one
    on a tie. *)
Definition roundDecimal (s p : Z) (f : nat) : N :=
  let q := (p + Z.of_nat f)%Z in
  if (0 <=? q)%Z then Z.to_N (s * 10 ^ q)
  else Z.to_N ((2 * s + 10 ^ (- q)) / (2 * 10 ^ (- q))).

(** [new Intl.NumberFormat("en-US", { style: "currency", currency,
    minimumFractionDigits: digits, maximumFractionDigits: digits }).format(x)]:
    the sign, the currency symbol, the grouped integer digits, a point and
    [digits] fraction digits (pattern [¤#,##0.00]); the digits are those
    of the shortest decimal of [x], rounded half-way cases away from
    zero. *)
Definition formatCurrency (currency : Currency) (digits : nat) (x : float) : string :=
  let body (n : N) :=
    if (digits =? 0)%nat then grouped (digitsOf n)
    else let (a, b) := fixedParts digits n in grouped a ++ "." ++ b in
  match Prim2SF x with
  | S754_nan => currencySymbol currency ++ "NaN"
  | S754_infinity s => (if s then "-" else "") ++ currencySymbol currency ++ "∞"
  | S754_zero s => (if s then "-" else "") ++ currencySymbol currency ++ body 0%N
  | S754_finite s m e =>
      let (d, p) := shortest m e in
      (if s then "-" else "") ++ currencySymbol currency ++ body (roundDecimal d p digits)
  end.

(** What the specification asks of a formatted amount: integer digits
    (characters accepted by [intChar]), a point, exactly [f] fraction digits. *)
Definition decimalShape (intChar : ascii -> bool) (f : nat) (body : string) : Prop :=
  exists a b, body = a ++ "." ++ b
    /\ a <> "" /\ all intChar a = true
    /\ all isDigit b = true /\ length b = f.

End Num.

(** ** Formatting in the component *)

(** [formatNumber], closed over [selectedCurrency]. *)
Definition formatNumber (selectedCurrency : Currency) (num : float) : string :=
  Num.formatCurrency selectedCurrency 2 num.

(** The class of the percentage paragraph:
    [crypto.price_change_percentage_24h >= 0 ? "text-green-500" : "text-red-500"]. *)
Definition changeClass (crypto : Cryptocurrency) : string :=
  if PrimFloat.leb 0 (price_change_percentage_24h crypto)
  then "text-green-500" else "text-red-500".

(** The text of the percentage paragraph, before its ["%"]:
    [crypto.price_change_percentage_24h.toFixed(2)]. *)
Definition changeText (crypto : Cryptocurrency) : Num.NumberText :=
  Num.toFixed 2 (price_change_percentage_24h crypto).

(** The figures of one card of the list. *)
Record Card := {
  priceText : string;
  percentClass : string;
  percentText : Num.NumberText;
  marketCapText : string;
  volumeText : string
}.

Definition renderCard (selectedCurrency : Currency) (crypto : Cryptocurrency) : Card :=
  {| priceText := formatNumber selectedCurrency (current_price crypto);
     percentClass := changeClass crypto;
     percentText := changeText crypto;
     marketCapText := "Market Cap: " ++ formatNumber selectedCurrency (market_cap crypto);
     volumeText := "Volume: " ++ formatNumber selectedCurrency (total_volume crypto) |}.

(** ** The search filter (the effect on [searchQuery], [cryptocurrencies]) *)

(** The predicate handed to [cryptocurrencies.filter]. *)
Definition matchesQuery (searchQuery : string) (crypto : Cryptocurrency) : bool :=
  Str.includes (Str.toLowerCase (name crypto)) (Str.toLowerCase searchQuery)
  || Str.includes (Str.toLowerCase (symbol crypto)) (Str.toLowerCase searchQuery).

(** [const filtered = cryptocurrencies.filter(...)]. *)
Definition filtered (cryptocurrencies : list Cryptocurrency)
  (searchQuery : string) : list Cryptocurrency :=
  List.filter (matchesQuery searchQuery) cryptocurrencies.

(** Specification side: a record is wanted when its name or symbol
    contains the query, whatever the letter case. *)
Definition wanted (Q : string) (c : Cryptocurrency) : Prop :=
  Str.containsIgnoringCase (name c) Q \/ Str.containsIgnoringCase (symbol c) Q.

(** Records whose name and symbol are ASCII text. *)
Definition asciiRecord (c : Cryptocurrency) : bool :=
  Str.isAscii (name c) && Str.isAscii (symbol c).

Definition asciiRecords (S : list Cryptocurrency) : bool := forallb asciiRecord S.

(** [Selection P S R]: [R] is [S] with exactly the elements satisfying [P]
    kept, each occurrence once, in the order of [S]. *)
Inductive Selection {A : Type} (P : A -> Prop) : list A -> list A -> Prop :=
| sel_nil : Selection P [] []
| sel_keep x S R : P x -> Selection P S R -> Selection P (x :: S) (x :: R)
| sel_skip x S R : ~ P x -> Selection P S R -> Selection P (x :: S) R.

(** ** Dates *)

Module DateModel.

(** The time value of [new Date(x)]: [x] truncated to an integer number
    of milliseconds, or nothing ("Invalid Date") when [x] is not finite
    or beyond 8.64e15 in magnitude (ECMAScript's [TimeClip]). *)
Definition timeValue (x : float) : option Z :=
  match Prim2SF x with
  | S754_zero _ => Some 0%Z
  | S754_finite s m e =>
      let mag := if (0 <=? e)%Z then (Zpos m * 2 ^ e)%Z
                 else (Zpos m / 2 ^ (- e))%Z in
      if (mag <=? 8640000000000000)%Z
      then Some (if s then (- mag)%Z else mag) else None
  | _ => None
  end.

(** Year, month and day of the proleptic Gregorian calendar for a count
    of days since 1 January 1970. *)
Definition civil (days : Z) : Z * Z * Z :=
  let z := (days + 719468)%Z in
  let era := (z / 146097)%Z in
  let doe := (z - era * 146097)%Z in
  let yoe := ((doe - doe / 1460 + doe / 36524 - doe / 146096) / 365)%Z in
  let doy := (doe - (365 * yoe + yoe / 4 - yoe / 100))%Z in
  let mp := ((5 * doy + 2) / 153)%Z in
  let d := (doy - (153 * mp + 2) / 5 + 1)%Z in
  let m := if (mp <? 10)%Z then (mp + 3)%Z else (mp - 9)%Z in
  let y := (yoe + era * 400 + (if (m <=? 2)%Z then 1 else 0))%Z in
  (y, m, d).

(** [toLocaleDateString()] in one concrete environment: locale [en-US],
    time zone UTC, which writes month/day/year.  It stands for the
    browser's own setting in the worked examples; the general results
    below hold for any such function.  The year written is the year of
    its era, without the era: year 0 of the calendar is 1 (BC), year -1
    is 2. *)
Definition enUS_UTC (x : float) : string :=
  match timeValue x with
  | None => "Invalid Date"
  | Some t =>
      let '(y, m, d) := civil (t / 86400000) in
      let yearOfEra := if (y <=? 0)%Z then (1 - y)%Z else y in
      Num.digitsOf (Z.to_N m) ++ "/" ++ Num.digitsOf (Z.to_N d)
        ++ "/" ++ Num.digitsOf (Z.to_N yearOfEra)
  end.

End DateModel.

(** ** Component state *)

(** One dataset of the line chart, as [fetchChartData] builds it. *)
Record Dataset := {
  label : string;
  data : list float;
  borderColor : string;
  backgroundColor : string;
  borderWidth : nat;
  fill : bool;
  tension : float;
  pointRadius : nat;
  pointHoverRadius : nat
}.

(** [ChartData<"line">]. *)
Record ChartData := {
  labels : list string;
  datasets : list Dataset
}.

(** The [useState] cells of [Home]. *)
Record State := {
  darkMode : bool;
  searchQuery : string;
  cryptocurrencies : list Cryptocurrency;
  filteredCryptos : list Cryptocurrency;
  selectedCrypto : string;
  chartData : ChartData;
  selectedCurrency : Currency;
  loading : bool;
  message : string
}.

Definition initialState : State :=
  {| darkMode := false;
     searchQuery := "";
     cryptocurrencies := [];
     filteredCryptos := [];
     selectedCrypto := "bitcoin";
     chartData := {| labels := []; datasets := [] |};
     selectedCurrency := USD;
     loading := true;
     message := "" |}.

(** A GET issued through [axios.get], by the function that awaits it. *)
Inductive Request :=
| MarketsRequest (url : string)
| MarketChartRequest (url : string).

Definition marketsUrl (selectedCurrency : Currency) : string :=
  "https://api.coingecko.com/api/v3/coins/markets?vs_currency="
  ++ Str.toLowerCase (code selectedCurrency)
  ++ "&order=market_cap_desc&per_page=100&sparkline=false".

Definition marketChartUrl (selectedCrypto : string) (selectedCurrency : Currency) : string :=
  "https://api.coingecko.com/api/v3/coins/" ++ selectedCrypto
  ++ "/market_chart?vs_currency=" ++ Str.toLowerCase (code selectedCurrency)
  ++ "&days=7&interval=daily".

(** How an awaited request ends: with the response's data, or with an
    exception that lands in the [catch] block. *)
Inductive Outcome (A : Type) :=
| Fulfilled (data : A)
| Rejected.
Arguments Fulfilled {A} data.
Arguments Rejected {A}.

(** The component in its environment.
    - [rerender]: a setter has changed a cell since the last commit, so
      React renders again and then runs the effects.
    - [filterDeps]: [searchQuery] or [cryptocurrencies] changed since the
      filter effect last ran (its dependency array).
    - [requests]: every GET issued, oldest first; [settled]: the
      positions of those whose promise has settled.
    - [chartOrigin]: bookkeeping only, the position of the request whose
      response the current [chartData] was built from. *)
Record World := {
  state : State;
  rerender : bool;
  filterDeps : bool;
  requests : list Request;
  settled : list nat;
  chartOrigin : option nat
}.

Definition currencyEqb (a b : Currency) : bool :=
  match a, b with
  | USD, USD | EUR, EUR | GBP, GBP | JPY, JPY => true
  | _, _ => false
  end.

(** *** Setters

    A setter called with the value a cell already holds (compared as
    [Object.is] does) changes nothing and asks for no render.  Arrays and
    objects handed to a setter here are always fresh ([response.data],
    the result of [filter], an object literal), hence always a change. *)

Definition update (changed : bool) (depsTouched : bool) (s : State) (w : World) : World :=
  if changed then
    {| state := s; rerender := true;
       filterDeps := filterDeps w || depsTouched;
       requests := requests w; settled := settled w;
       chartOrigin := chartOrigin w |}
  else w.

Definition setDarkMode (v : bool) (w : World) : World :=
  let s := state w in
  update (negb (Bool.eqb (darkMode s) v)) false
    {| darkMode := v; searchQuery := searchQuery s;
       cryptocurrencies := cryptocurrencies s; filteredCryptos := filteredCryptos s;
       selectedCrypto := selectedCrypto s; chartData := chartData s;
       selectedCurrency := selectedCurrency s; loading := loading s;
       message := message s |} w.

Definition setSearchQuery (v : string) (w : World) : World :=
  let s := state w in
  update (negb (String.eqb (searchQuery s) v)) true
    {| darkMode := darkMode s; searchQuery := v;
       cryptocurrencies := cryptocurrencies s; filteredCryptos := filteredCryptos s;
       selectedCrypto := selectedCrypto s; chartData := chartData s;
       selectedCurrency := selectedCurrency s; loading := loading s;
       message := message s |} w.

Definition setCryptocurrencies (v : list Cryptocurrency) (w : World) : World :=
  let s := state w in
  update true true
    {| darkMode := darkMode s; searchQuery := searchQuery s;
       cryptocurrencies := v; filteredCryptos := filteredCryptos s;
       selectedCrypto := selectedCrypto s; chartData := chartData s;
       selectedCurrency := selectedCurrency s; loading := loading s;
       message := message s |} w.

Definition setFilteredCryptos (v : list Cryptocurrency) (w : World) : World :=
  let s := state w in
  update true false
    {| darkMode := darkMode s; searchQuery := searchQuery s;
       cryptocurrencies := cryptocurrencies s; filteredCryptos := v;
       selectedCrypto := selectedCrypto s; chartData := chartData s;
       selectedCurrency := selectedCurrency s; loading := loading s;
       message := message s |} w.

Definition setSelectedCrypto (v : string) (w : World) : World :=
  let s := state w in
  update (negb (String.eqb (selectedCrypto s) v)) false
    {| darkMode := darkMode s; searchQuery := searchQuery s;
       cryptocurrencies := cryptocurrencies s; filteredCryptos := filteredCryptos s;
       selectedCrypto := v; chartData := chartData s;
       selectedCurrency := selectedCurrency s; loading := loading s;
       message := message s |} w.

Definition setChartData (v : ChartData) (w : World) : World :=
  let s := state w in
  update true false
    {| darkMode := darkMode s; searchQuery := searchQuery s;
       cryptocurrencies := cryptocurrencies s; filteredCryptos := filteredCryptos s;
       selectedCrypto := selectedCrypto s; chartData := v;
       selectedCurrency := selectedCurrency s; loading := loading s;
       message := message s |} w.

Definition setSelectedCurrency (v : Currency) (w : World) : World :=
  let s := state w in
  update (negb (currencyEqb (selectedCurrency s) v)) false
    {| darkMode := darkMode s; searchQuery := searchQuery s;
       cryptocurrencies := cryptocurrencies s; filteredCryptos := filteredCryptos s;
       selectedCrypto := selectedCrypto s; chartData := chartData s;
       selectedCurrency := v; loading := loading s;
       message := message s |} w.

Definition setLoading (v : bool) (w : World) : World :=
  let s := state w in
  update (negb (Bool.eqb (loading s) v)) false
    {| darkMode := darkMode s; searchQuery := searchQuery s;
       cryptocurrencies := cryptocurrencies s; filteredCryptos := filteredCryptos s;
       selectedCrypto := selectedCrypto s; chartData := chartData s;
       selectedCurrency := selectedCurrency s; loading := v;
       message := message s |} w.

Definition setMessage (v : string) (w : World) : World :=
  let s := state w in
  update (negb (String.eqb (message s) v)) false
    {| darkMode := darkMode s; searchQuery := searchQuery s;
       cryptocurrencies := cryptocurrencies s; filteredCryptos := filteredCryptos s;
       selectedCrypto := selectedCrypto s; chartData := chartData s;
       selectedCurrency := selectedCurrency s; loading := loading s;
       message := v |} w.

(** [axios.get(url)]: the request goes out; its answer comes later. *)
Definition axios_get (r : Request) (w : World) : World :=
  {| state := state w; rerender := rerender w; filterDeps := filterDeps w;
     requests := requests w ++ [r]; settled := settled w;
     chartOrigin := chartOrigin w |}.

(** Sequencing of statements, first to last. *)
Notation "w |> f" := (f w) (at level 45, left associativity, only parsing).

(** ** The fetch functions

    An [async] function runs up to its [await] when called, and resumes
    when the awaited promise settles: each fetch function is its first
    part, and the two ways it can resume ([try] completed, or [catch]). *)

(** [fetchCryptoData], up to [await axios.get(...)]. *)
Definition fetchCryptoData (w : World) : World :=
  w |> setLoading true
    |> setMessage ""
    |> axios_get (MarketsRequest (marketsUrl (selectedCurrency (state w)))).

(** [fetchCryptoData] resumed with a response. *)
Definition fetchCryptoData_try (response_data : list Cryptocurrency) (w : World) : World :=
  w |> setCryptocurrencies response_data
    |> setLoading false
    |> setMessage "Data fetched successfully!".

(** [fetchCryptoData] resumed in its [catch] block. *)
Definition fetchCryptoData_catch (w : World) : World :=
  w |> setMessage "Failed to fetch cryptocurrency data. Please try again later."
    |> setLoading false.

(** [fetchChartData], up to [await axios.get(...)]. *)
Definition fetchChartData (w : World) : World :=
  w |> setMessage ""
    |> axios_get (MarketChartRequest
         (marketChartUrl (selectedCrypto (state w)) (selectedCurrency (state w)))).

(** [fetchChartData] resumed in its [catch] block. *)
Definition fetchChartData_catch (w : World) : World :=
  w |> setMessage "Failed to load chart data.".

(** The banner above the search box: shown when [message] is not empty,
    red when the message includes ["Failed"], green otherwise. *)
Definition banner (s : State) : option string :=
  if String.eqb (message s) "" then None
  else Some (if Str.includes (message s) "Failed" then "bg-red-500" else "bg-green-500").

Definition truthy (s : string) : bool := negb (String.eqb s "").

(** The chart panel is rendered when
    [selectedCrypto && chartData.labels && chartData.labels.length > 0]. *)
Definition chartShown (s : State) : bool :=
  truthy (selectedCrypto s) && (0 <? List.length (labels (chartData s)))%nat.

(** The list area: ["Loading..."] while [loading], the cards otherwise. *)
Definition listShown (s : State) : option (list Card) :=
  if loading s then None
  else Some (map (renderCard (selectedCurrency s)) (filteredCryptos s)).

Section Component.

(** [new Date(timestamp).toLocaleDateString()] of the browser the page
    runs in: its locale and time zone are not the page's to choose. *)
Variable toLocaleDateString : float -> string.

(** The chart series built from [response.data.prices]. *)
Definition chartSeries (prices : list (float * float)) : ChartData :=
  let labels := map (fun p => toLocaleDateString (fst p)) prices in
  let prices := map (fun p => snd p) prices in
  {| labels := labels;
     datasets :=
       [ {| label := "Price";
            data := prices;
            borderColor := "#8884d8";
            backgroundColor := "rgba(136, 132, 216, 0.5)";
            borderWidth := 2;
            fill := false;
            tension := 0.4%float;
            pointRadius := 4;
            pointHoverRadius := 6 |} ] |}.

(** [fetchChartData] resumed with a response. *)
Definition fetchChartData_try (prices : list (float * float)) (w : World) : World :=
  w |> setChartData (chartSeries prices).

(** *** Effects

    After every committed render React runs the component's effects in
    source order: an effect without a dependency array every time, one
    with an array when a dependency changed.
    - lines 120-125, no array: [fetchCryptoData()], and the interval
      is set anew;
    - lines 128-132, no array: [fetchChartData()] when [selectedCrypto]
      is not empty;
    - lines 135-142, on [searchQuery] and [cryptocurrencies]: the filter.
    The effect on [darkMode] (lines 98-117) recolours the chart axes and
    sets no state; it is left out. *)
Definition runEffects (w : World) : World :=
  let committed :=
    {| state := state w; rerender := false; filterDeps := false;
       requests := requests w; settled := settled w;
       chartOrigin := chartOrigin w |} in
  let s := state w in
  committed
    |> fetchCryptoData
    |> (fun w' => if truthy (selectedCrypto s) then fetchChartData w' else w')
    |> (fun w' => if filterDeps w
                  then setFilteredCryptos (filtered (cryptocurrencies s) (searchQuery s)) w'
                  else w').

(** One render-and-effects round, when a render is due. *)
Definition flush (w : World) : World :=
  if rerender w then runEffects w else w.

(** Rounds until no setter asks for another render: two always suffice
    ([settle_quiescent] below). *)
Definition settle (w : World) : World := flush (flush w).

(** The first render of the page, with all effects run. *)
Definition mounted : World :=
  settle {| state := initialState; rerender := true; filterDeps := true;
            requests := []; settled := []; chartOrigin := None |}.

(** *** Events *)

Inductive Event :=
| ToggleDarkMode                      (* the theme button *)
| ChangeCurrency (value : Currency)   (* the currency selector *)
| TypeSearch (value : string)         (* the search box *)
| ClickCrypto (crypto : Cryptocurrency) (* a card of the list *)
| IntervalTick                        (* [setInterval(fetchCryptoData, 60000)] *)
| MarketsSettled (k : nat) (response : Outcome (list Cryptocurrency))
| MarketChartSettled (k : nat) (response : Outcome (list (float * float))).

(** The request at position [k], while its promise is still pending. *)
Definition awaiting (w : World) (k : nat) : option Request :=
  if existsb (Nat.eqb k) (settled w) then None else nth_error (requests w) k.

Definition settleRequest (k : nat) (origin : option nat) (w : World) : World :=
  {| state := state w; rerender := rerender w; filterDeps := filterDeps w;
     requests := requests w; settled := k :: settled w;
     chartOrigin := origin |}.

(** The handler or continuation an event runs, before React renders. *)
Definition dispatch (e : Event) (w : World) : World :=
  match e with
  | ToggleDarkMode => setDarkMode (negb (darkMode (state w))) w
  | ChangeCurrency value => setSelectedCurrency value w
  | TypeSearch value => setSearchQuery value w
  | ClickCrypto crypto => setSelectedCrypto (id crypto) w
  | IntervalTick => fetchCryptoData w
  | MarketsSettled k response =>
      match awaiting w k with
      | Some (MarketsRequest _) =>
          let w := settleRequest k (chartOrigin w) w in
          match response with
          | Fulfilled response_data => fetchCryptoData_try response_data w
          | Rejected => fetchCryptoData_catch w
          end
      | _ => w
      end
  | MarketChartSettled k response =>
      match awaiting w k with
      | Some (MarketChartRequest _) =>
          match response with
          | Fulfilled prices => fetchChartData_try prices (settleRequest k (Some k) w)
          | Rejected => fetchChartData_catch (settleRequest k (chartOrigin w) w)
          end
      | _ => w
      end
  end.

(** An event, then the renders and effects it leads to. *)
Definition handle (e : Event) (w : World) : World := settle (dispatch e w).

(** The page after a sequence of events, from its first render. *)
Definition run (events : list Event) : World :=
  fold_left (fun w e => handle e w) events mounted.

(** The requests an event added. *)
Definition issuedBy (e : Event) (w : World) : list Request :=
  skipn (List.length (requests w)) (requests (handle e w)).

End Component.

(** What a render-and-effects round never touches. *)
Definition untouched (w w' : World) : Prop :=
  cryptocurrencies (state w') = cryptocurrencies (state w)
  /\ chartData (state w') = chartData (state w)
  /\ selectedCrypto (state w') = selectedCrypto (state w)
  /\ selectedCurrency (state w') = selectedCurrency (state w)
  /\ searchQuery (state w') = searchQuery (state w)
  /\ darkMode (state w') = darkMode (state w)
  /\ settled w' = settled w
  /\ chartOrigin w' = chartOrigin w.

(** ** Vocabulary of the properties *)

(** The chart on screen belongs to the current selection: it was built
    from the response to a request for the asset and the currency that
    are selected now. *)
Definition chartCorresponds (w : World) : Prop :=
  chartShown (state w) = true ->
  exists k, chartOrigin w = Some k
    /\ nth_error (requests w) k
       = Some (MarketChartRequest
                 (marketChartUrl (selectedCrypto (state w)) (selectedCurrency (state w)))).

(** The sign of a number, read off its representation. *)
Definition isZeroOrPositive (x : float) : bool :=
  match Prim2SF x with
  | S754_zero _ | S754_infinity false | S754_finite false _ _ => true
  | _ => false
  end.

Definition isNegative (x : float) : bool :=
  match Prim2SF x with
  | S754_infinity true | S754_finite true _ _ => true
  | _ => false
  end.

(** The two records of the specification's listing scenario. *)
Definition bitcoin : Cryptocurrency :=
  {| id := "bitcoin"; symbol := "btc"; name := "Bitcoin";
     current_price := 50000%float; price_change_percentage_24h := 1.23%float;
     market_cap := 980000000000%float; total_volume := 25000000000%float;
     image := "https://assets.coingecko.com/coins/images/1/large/bitcoin.png" |}.

Definition ethereum : Cryptocurrency :=
  {| id := "ethereum"; symbol := "eth"; name := "Ethereum";
     current_price := 3000%float; price_change_percentage_24h := (-0.5)%float;
     market_cap := 360000000000%float; total_volume := 12000000000%float;
     image := "https://assets.coingecko.com/coins/images/279/large/ethereum.png" |}.

(** A record like [c] whose 24h change is [change]. *)
Definition withChange (change : float) (c : Cryptocurrency) : Cryptocurrency :=
  {| id := id c; symbol := symbol c; name := name c;
     current_price := current_price c; price_change_percentage_24h := change;
     market_cap := market_cap c; total_volume := total_volume c;
     image := image c |}.

(** A seven-day history response: one point a day from 8 November 2023. *)
Definition week : list (float * float) :=
  [ (1699401600000, 35000); (1699488000000, 35600); (1699574400000, 36700);
    (1699660800000, 37300); (1699747200000, 37100); (1699833600000, 37000);
    (1699920000000, 36500) ]%float.

(** The list is in step with the asset set and the query. *)
Definition listInStep (w : World) : Prop :=
  filterDeps w = false
  /\ filteredCryptos (state w)
     = filtered (cryptocurrencies (state w)) (searchQuery (state w)).

(** ** The rest of the card and of the page *)

Module Upper.

Definition isLower (c : ascii) : bool :=
  ((97 <=? nat_of_ascii c)%nat && (nat_of_ascii c <=? 122)%nat)%bool.

(** The upper-case partner of a lower-case letter sits 32 code points down. *)
Definition upperChar (c : ascii) : ascii :=
  if isLower c then ascii_of_nat (nat_of_ascii c - 32) else c.

(** [String.prototype.toUpperCase], on ASCII text. *)
Fixpoint toUpperCase (s : string) : string :=
  match s with
  | EmptyString => EmptyString
  | String c s' => String (upperChar c) (toUpperCase s')
  end.

End Upper.

(** The symbol as a card shows it: [crypto.symbol.toUpperCase()]. *)
Definition symbolText (crypto : Cryptocurrency) : string :=
  Upper.toUpperCase (symbol crypto).

(** The page at rest: no render is due, the filter is up to date, the
    list area shows ["Loading..."] and no message is set. *)
Definition atRest (w : World) : Prop :=
  rerender w = false /\ filterDeps w = false
  /\ loading (state w) = true /\ message (state w) = "".

(** The log of requests is sound: a request settles once, and only a
    request that was issued settles. *)
Definition logSound (w : World) : Prop :=
  NoDup (settled w) /\ forall k, In k (settled w) -> k < List.length (requests w).

Module NumRead.

Definition digitValue (c : ascii) : N := (N_of_ascii c - 48)%N.

Fixpoint readFrom (acc : N) (s : string) : N :=
  match s with
  | EmptyString => acc
  | String c s' => readFrom (10 * acc + digitValue c)%N s'
  end.

(** The number a string of decimal digits denotes. *)
Definition readDigits (s : string) : N := readFrom 0%N s.

(** [n] is the integer nearest to [m * 2^e * 10^f], the larger of the two
    when that value lies half way: [n - 1/2 <= m * 2^e * 10^f < n + 1/2],
    with the power of two of a negative [e] moved to the other side. *)
Definition roundsTo (m : positive) (e : Z) (f : nat) (n : N) : Prop :=
  let num := (Npos m * 2 ^ Z.to_N e * 10 ^ N.of_nat f)%N in
  let den := (2 ^ Z.to_N (- e))%N in
  (2 * n * den <= 2 * num + den /\ 2 * num < (2 * n + 1) * den)%N.




End NumRead.

(** ** Chart options *)

Module ChartOptions.

(** The part of [chartOptions.scales] the page writes: per axis a grid
    (its [display] flag and [color], each set or not) and the tick colour. *)
Record Grid := { display : option bool; color : option string }.

Record Axis := { grid : option Grid; ticks : option string }.

Record Scales := { x : Axis; y : Axis }.

(** [chartOptions.scales] as the module declares it. *)
Definition initial : Scales :=
  {| x := {| grid := Some {| display := Some false; color := None |}; ticks := None |};
     y := {| grid := Some {| display := None; color := Some "rgba(0, 0, 0, 0.1)" |};
             ticks := None |} |}.

(** The effect on [darkMode]: [x] keeps what it had and gets its tick
    colour; [y] gets its tick colour and a new grid holding a colour only. *)
Definition applyTheme (darkMode : bool) (scales : Scales) : Scales :=
  {| x := {| grid := grid (x scales);
             ticks := Some (if darkMode then "#fff" else "#666") |};
     y := {| grid := Some {| display := None;
                             color := Some (if darkMode
                                            then "rgba(255, 255, 255, 0.1)"
                                            else "rgba(0, 0, 0, 0.1)") |};
             ticks := Some (if darkMode then "#fff" else "#666") |} |}.

(** The options after the effect has run for each theme of a list in turn. *)
Definition afterThemes (themes : list bool) (scales : Scales) : Scales :=
  fold_left (fun s d => applyTheme d s) themes scales.

End ChartOptions.

(** The banner an event calls for: red when it is the failure of a
    pending request, green when it is the success of a pending listing
    request, none otherwise (a history request that succeeds sets no
    message). *)
Definition bannerDue (e : Event) (w : World) : option string :=
  match e with
  | MarketsSettled k response =>
      match awaiting w k, response with
      | Some (MarketsRequest _), Fulfilled _ => Some "bg-green-500"
      | Some (MarketsRequest _), Rejected => Some "bg-red-500"
      | _, _ => None
      end
  | MarketChartSettled k response =>
      match awaiting w k, response with
      | Some (MarketChartRequest _), Rejected => Some "bg-red-500"
      | _, _ => None
      end
  | _ => None
  end.

(** ** Proof automation *)

(** Unfolding of the setters and fetch functions. *)
Ltac setters :=
  unfold fetchCryptoData, fetchCryptoData_try, fetchCryptoData_catch,
    fetchChartData, fetchChartData_try, fetchChartData_catch,
    setDarkMode, setSearchQuery, setCryptocurrencies, setFilteredCryptos,
    setSelectedCrypto, setChartData, setSelectedCurrency, setLoading,
    setMessage, axios_get, settleRequest, update;
  cbn [state rerender filterDeps requests settled chartOrigin negb].

(** One round of effects on a world whose fields are given, by
    evaluation of the setters and their tests. *)
Ltac setters_on_record :=
  lazy beta iota zeta delta
    [runEffects fetchCryptoData fetchChartData setFilteredCryptos setLoading
     setMessage axios_get update
     state rerender filterDeps requests settled chartOrigin
     darkMode searchQuery cryptocurrencies filteredCryptos selectedCrypto
     chartData selectedCurrency loading message
     truthy negb orb Bool.eqb String.eqb Ascii.eqb].

(** Projections out of explicit records, and the tests on their fields. *)
Ltac project :=
  cbn [state rerender filterDeps requests settled chartOrigin
       darkMode searchQuery cryptocurrencies filteredCryptos selectedCrypto
       chartData selectedCurrency loading message
       truthy negb orb Bool.eqb String.eqb Ascii.eqb app].

(** Case analysis on every remaining test. *)
Ltac split_ifs :=
  repeat match goal with
  | |- context [if ?b then _ else _] => destruct b eqn:?; cbn
  end.

(** The same, remembering what each equality test found. *)
Ltac split_tests :=
  repeat match goal with
  | |- context [Bool.eqb ?a ?b] => destruct (Bool.eqb_spec a b)
  | |- context [String.eqb ?a ?b] => destruct (String.eqb_spec a b)
  | |- context [if ?b then _ else _] => destruct b eqn:?
  end; cbn in *.

(** * Properties *)

(** ** Strings *)

Module StrFacts.
Import Str.

Lemma isUpper_range c :
  isUpper c = true <-> 65 <= nat_of_ascii c <= 90.
Proof.
  unfold isUpper. rewrite andb_true_iff, !Nat.leb_le. tauto.
Qed.

Lemma nat_of_shifted c :
  isUpper c = true -> nat_of_ascii (ascii_of_nat (nat_of_ascii c + 32)) = nat_of_ascii c + 32.
Proof.
  intros H. apply isUpper_range in H. apply nat_ascii_embedding. lia.
Qed.

Lemma shifted_not_upper c :
  isUpper c = true -> isUpper (ascii_of_nat (nat_of_ascii c + 32)) = false.
Proof.
  intros H. pose proof (nat_of_shifted c H) as E.
  apply isUpper_range in H.
  destruct (isUpper (ascii_of_nat (nat_of_ascii c + 32))) eqn:U; [|reflexivity].
  apply isUpper_range in U. lia.
Qed.

Lemma nat_of_ascii_inj a b : nat_of_ascii a = nat_of_ascii b -> a = b.
Proof.
  intros H. rewrite <- (ascii_nat_embedding a), <- (ascii_nat_embedding b).
  now rewrite H.
Qed.

Lemma sameLetter_lower a b : sameLetter a b <-> lowerChar a = lowerChar b.
Proof.
  split.
  - intros [c | c U | c U]; unfold lowerChar.
    + reflexivity.
    + now rewrite U, (shifted_not_upper c U).
    + now rewrite U, (shifted_not_upper c U).
  - unfold lowerChar.
    destruct (isUpper a) eqn:Ua, (isUpper b) eqn:Ub; intros E.
    + assert (a = b) as ->; [|constructor].
      apply nat_of_ascii_inj.
      apply (f_equal nat_of_ascii) in E.
      rewrite !nat_of_shifted in E by assumption. lia.
    + subst b. now constructor.
    + subst a. now constructor.
    + subst b. constructor.
Qed.

Lemma equalIgnoringCase_lower s t :
  equalIgnoringCase s t <-> toLowerCase s = toLowerCase t.
Proof.
  split.
  - induction 1 as [|a b s t L _ IH]; simpl; [reflexivity|].
    apply sameLetter_lower in L. now rewrite L, IH.
  - revert t. induction s as [|a s IH]; intros [|b t]; simpl; intros E;
      try discriminate; [constructor|].
    injection E as E1 E2. constructor; [now apply sameLetter_lower | now apply IH].
Qed.

Lemma toLowerCase_app s t : toLowerCase (s ++ t) = toLowerCase s ++ toLowerCase t.
Proof. induction s as [|c s IH]; simpl; [reflexivity | now rewrite IH]. Qed.

(** A split of the lowered string comes from a split of the string. *)
Lemma toLowerCase_split s : forall a b,
  toLowerCase s = a ++ b ->
  exists s1 s2, s = s1 ++ s2 /\ toLowerCase s1 = a /\ toLowerCase s2 = b.
Proof.
  intros a. revert s. induction a as [|x a IH]; intros s b E.
  - exists EmptyString, s. simpl in *. auto.
  - destruct s as [|c s]; simpl in E; [discriminate|].
    injection E as Ec Es. destruct (IH s b Es) as (s1 & s2 & -> & <- & <-).
    exists (String c s1), s2. simpl. now rewrite Ec.
Qed.

Lemma startsWith_spec s q : startsWith s q = true <-> exists t, s = q ++ t.
Proof.
  revert s. induction q as [|a q IH]; intros s; simpl.
  - split; [exists s; reflexivity | reflexivity].
  - destruct s as [|b s].
    + split; [discriminate | intros [t E]; discriminate].
    + rewrite andb_true_iff, Ascii.eqb_eq, IH. split.
      * intros [-> [t ->]]. now exists t.
      * intros [t E]. injection E as -> ->. split; [reflexivity | now exists t].
Qed.

Lemma includes_spec s q :
  includes s q = true <-> exists a b, s = a ++ q ++ b.
Proof.
  induction s as [|c s IH]; simpl; rewrite orb_true_iff, startsWith_spec.
  - split.
    + intros [[t E] | E]; [|discriminate]. exists EmptyString, t. exact E.
    + intros ([|x a] & b & E); [left; now exists b | discriminate].
  - rewrite IH. split.
    + intros [[t E] | (a & b & E)].
      * exists EmptyString, t. exact E.
      * exists (String c a), b. simpl. now rewrite E.
    + intros ([|x a] & b & E).
      * left. now exists b.
      * right. simpl in E. injection E as _ E. now exists a, b.
Qed.

(** The code's test is the specification's relation. *)
Lemma includes_lower_spec s q :
  includes (toLowerCase s) (toLowerCase q) = true <-> containsIgnoringCase s q.
Proof.
  rewrite includes_spec. unfold containsIgnoringCase. split.
  - intros (a & b & E).
    destruct (toLowerCase_split s a _ E) as (pre & rest & -> & Ea & Er).
    destruct (toLowerCase_split rest _ b Er) as (mid & post & -> & Em & Ep).
    exists pre, mid, post. split; [reflexivity|].
    now apply equalIgnoringCase_lower.
  - intros (pre & mid & post & -> & E).
    apply equalIgnoringCase_lower in E.
    exists (toLowerCase pre), (toLowerCase post).
    now rewrite !toLowerCase_app, E.
Qed.

Lemma includes_empty s : includes s EmptyString = true.
Proof. destruct s; reflexivity. Qed.

End StrFacts.

(** ** Filter *)

Lemma matchesQuery_wanted Q c : matchesQuery Q c = true <-> wanted Q c.
Proof.
  unfold matchesQuery, wanted.
  now rewrite orb_true_iff, !StrFacts.includes_lower_spec.
Qed.


(** A selection is determined by its source list. *)
Lemma Selection_unique {A} (P : A -> Prop) S R1 R2 :
  Selection P S R1 -> Selection P S R2 -> R1 = R2.
Proof.
  intros H1. revert R2. induction H1; intros R2 H2; inversion H2; subst;
    try reflexivity; try contradiction; auto using f_equal.
Qed.


Lemma filtered_all S : filtered S "" = S.
Proof.
  unfold filtered. induction S as [|c S IH]; simpl; [reflexivity|].
  unfold matchesQuery at 1. simpl. rewrite StrFacts.includes_empty. simpl.
  now rewrite IH.
Qed.

(** ** Setters, fetch functions and the render cycle *)

Lemma untouched_refl w : untouched w w.
Proof. unfold untouched. tauto. Qed.

Lemma untouched_trans w1 w2 w3 :
  untouched w1 w2 -> untouched w2 w3 -> untouched w1 w3.
Proof.
  unfold untouched. intros H1 H2.
  repeat match goal with H : _ /\ _ |- _ => destruct H end.
  repeat split; congruence.
Qed.

(** What one round of effects does, all at once. *)
Lemma runEffects_eq w :
  runEffects w =
  let s := state w in
  {| state :=
       {| darkMode := darkMode s; searchQuery := searchQuery s;
          cryptocurrencies := cryptocurrencies s;
          filteredCryptos :=
            if filterDeps w then filtered (cryptocurrencies s) (searchQuery s)
            else filteredCryptos s;
          selectedCrypto := selectedCrypto s; chartData := chartData s;
          selectedCurrency := selectedCurrency s;
          loading := true; message := "" |};
     rerender := negb (loading s) || negb (String.eqb (message s) "") || filterDeps w;
     filterDeps := false;
     requests :=
       (let listing :=
          (requests w ++ [MarketsRequest (marketsUrl (selectedCurrency s))])%list in
        if truthy (selectedCrypto s)
        then (listing ++ [MarketChartRequest
                            (marketChartUrl (selectedCrypto s) (selectedCurrency s))])%list
        else listing);
     settled := settled w;
     chartOrigin := chartOrigin w |}.
Proof.
  destruct w as [[dm sq cs fc sc cd cur ld msg] rr fd rq st co].
  destruct ld, fd, msg as [|c msg], sc as [|c' sc];
    setters_on_record; reflexivity.
Qed.

Lemma runEffects_untouched w : untouched w (runEffects w).
Proof. rewrite runEffects_eq. unfold untouched. project. tauto. Qed.

Lemma flush_untouched w : untouched w (flush w).
Proof.
  unfold flush. destruct (rerender w);
    [apply runEffects_untouched | apply untouched_refl].
Qed.

Lemma settle_untouched w : untouched w (settle w).
Proof.
  unfold settle. eapply untouched_trans; apply flush_untouched.
Qed.

(** After the effects have run, the page is loading, no message is
    shown, and the filter's dependencies are up to date. *)
Lemma runEffects_loading w :
  loading (state (runEffects w)) = true
  /\ message (state (runEffects w)) = ""
  /\ filterDeps (runEffects w) = false.
Proof. rewrite runEffects_eq. project. tauto. Qed.

(** Effects run on such a state change nothing more. *)
Lemma runEffects_stable w :
  loading (state w) = true -> message (state w) = "" -> filterDeps w = false ->
  rerender (runEffects w) = false /\ state (runEffects w) = state w.
Proof.
  intros Hl Hm Hf. rewrite runEffects_eq. project. rewrite Hl, Hm, Hf. project.
  split; [reflexivity|]. destruct (state w); cbn in *. congruence.
Qed.

(** X2. Two rounds always reach a state in which no render is due. *)
Lemma settle_quiescent w : rerender (settle w) = false.
Proof.
  unfold settle, flush at 2. destruct (rerender w) eqn:R.
  - destruct (runEffects_loading w) as (Hl & Hm & Hf).
    unfold flush. destruct (rerender (runEffects w)) eqn:R'; [|exact R'].
    now apply runEffects_stable.
  - unfold flush. now rewrite R.
Qed.

(** When a render is due and the filter's dependencies changed, the
    rounds leave [filteredCryptos] equal to the filter of the asset set. *)
Lemma settle_filters w :
  rerender w = true -> filterDeps w = true ->
  filteredCryptos (state (settle w))
  = filtered (cryptocurrencies (state w)) (searchQuery (state w)).
Proof.
  intros R F. unfold settle, flush at 2. rewrite R.
  assert (filteredCryptos (state (runEffects w))
          = filtered (cryptocurrencies (state w)) (searchQuery (state w))
          /\ rerender (runEffects w) = true) as [E R'].
  { rewrite runEffects_eq. project. rewrite F. auto using orb_true_r. }
  unfold flush. rewrite R'.
  destruct (runEffects_loading w) as (Hl & Hm & Hf).
  destruct (runEffects_stable _ Hl Hm Hf) as [_ ->]. exact E.
Qed.

(** ** Listing fetch *)

Lemma fetchCryptoData_catch_message w :
  message (state (fetchCryptoData_catch w))
  = "Failed to fetch cryptocurrency data. Please try again later.".
Proof. setters. split_tests; congruence. Qed.

Lemma fetchCryptoData_try_message response_data w :
  message (state (fetchCryptoData_try response_data w)) = "Data fetched successfully!".
Proof. setters. split_tests; congruence. Qed.

Lemma fetchCryptoData_message w : message (state (fetchCryptoData w)) = "".
Proof. setters. split_tests; congruence. Qed.

Lemma fetchCryptoData_assets w :
  cryptocurrencies (state (fetchCryptoData w)) = cryptocurrencies (state w).
Proof. setters. split_ifs; reflexivity. Qed.

Lemma fetchCryptoData_catch_assets w :
  cryptocurrencies (state (fetchCryptoData_catch w)) = cryptocurrencies (state w).
Proof. setters. split_ifs; reflexivity. Qed.

Lemma fetchCryptoData_try_assets response_data w :
  cryptocurrencies (state (fetchCryptoData_try response_data w)) = response_data.
Proof. setters. split_ifs; reflexivity. Qed.

Lemma fetchCryptoData_try_due response_data w :
  rerender (fetchCryptoData_try response_data w) = true
  /\ filterDeps (fetchCryptoData_try response_data w) = true
  /\ searchQuery (state (fetchCryptoData_try response_data w)) = searchQuery (state w).
Proof.
  setters. split_ifs; repeat split; try reflexivity;
    destruct (filterDeps w); reflexivity.
Qed.

(** C2. When a listing fetch fails, the asset set is what it was before
    the fetch (neither the call nor the [catch] block writes it, and the
    renders and effects that follow do not either), and the [catch] block
    sets the failure message, which the banner shows in red. *)
Theorem failed_listing_keeps_assets
  (toLocaleDateString : float -> string) (w : World) (k : nat) :
  cryptocurrencies (state (fetchCryptoData w)) = cryptocurrencies (state w)
  /\ cryptocurrencies (state (fetchCryptoData_catch w)) = cryptocurrencies (state w)
  /\ message (state (fetchCryptoData_catch w))
     = "Failed to fetch cryptocurrency data. Please try again later."
  /\ banner (state (fetchCryptoData_catch w)) = Some "bg-red-500"
  /\ cryptocurrencies (state (handle toLocaleDateString (MarketsSettled k Rejected) w))
     = cryptocurrencies (state w).
Proof.
  split; [|split; [|split; [|split]]].
  - apply fetchCryptoData_assets.
  - apply fetchCryptoData_catch_assets.
  - apply fetchCryptoData_catch_message.
  - unfold banner. now rewrite fetchCryptoData_catch_message.
  - unfold handle.
    destruct (settle_untouched (dispatch toLocaleDateString (MarketsSettled k Rejected) w))
      as (-> & _).
    cbn [dispatch]. destruct (awaiting w k) as [[url|url]|]; try reflexivity.
    now rewrite fetchCryptoData_catch_assets.
Qed.

(** C3. When a listing fetch succeeds, whatever the asset set and the
    message were (and whichever event led to the fetch, a change of
    currency included), the asset set becomes the response's records, so
    a record of the old set is still there only if the response has it;
    the call had cleared the message, and the success message is set,
    which the banner shows in green.  After the renders that follow, the
    asset set is still the response and the list is its filter. *)
Theorem successful_listing_replaces_assets
  (toLocaleDateString : float -> string) (w : World)
  (response_data : list Cryptocurrency) :
  cryptocurrencies (state (fetchCryptoData_try response_data w)) = response_data
  /\ (forall c, In c (cryptocurrencies (state (fetchCryptoData_try response_data w)))
                -> In c response_data)
  /\ message (state (fetchCryptoData w)) = ""
  /\ message (state (fetchCryptoData_try response_data w)) = "Data fetched successfully!"
  /\ banner (state (fetchCryptoData_try response_data w)) = Some "bg-green-500"
  /\ (forall value k url,
        let w1 := handle toLocaleDateString (ChangeCurrency value) w in
        awaiting w1 k = Some (MarketsRequest url) ->
        let w2 := handle toLocaleDateString (MarketsSettled k (Fulfilled response_data)) w1 in
        cryptocurrencies (state w2) = response_data
        /\ filteredCryptos (state w2) = filtered response_data (searchQuery (state w))).
Proof.
  split; [|split; [|split; [|split; [|split]]]].
  - apply fetchCryptoData_try_assets.
  - intros c. now rewrite fetchCryptoData_try_assets.
  - apply fetchCryptoData_message.
  - apply fetchCryptoData_try_message.
  - unfold banner. now rewrite fetchCryptoData_try_message.
  - intros value k url w1 H w2. split.
    + subst w2. unfold handle at 1.
      match goal with |- context [settle ?x] =>
        destruct (settle_untouched x) as (-> & _) end.
      cbn [dispatch]. rewrite H. apply fetchCryptoData_try_assets.
    + subst w2. unfold handle at 1. cbn [dispatch]. rewrite H.
      match goal with |- context [fetchCryptoData_try ?d ?x] =>
        destruct (fetchCryptoData_try_due d x) as (R & F & Q) end.
      rewrite settle_filters by assumption.
      rewrite fetchCryptoData_try_assets, Q. cbn [settleRequest state].
      subst w1. unfold handle.
      match goal with |- context [settle ?x] =>
        destruct (settle_untouched x) as (_ & _ & _ & _ & -> & _) end.
      cbn [dispatch]. setters. split_ifs; reflexivity.
Qed.

(** Witness for C3: after the currency is changed to EUR on the freshly
    mounted page, request 4 is the listing request for EUR; answered with
    the two records of the scenario, they become the asset set and the list. *)
Lemma successful_listing_witness :
  let w1 := handle DateModel.enUS_UTC (ChangeCurrency EUR) mounted in
  awaiting w1 4 = Some (MarketsRequest (marketsUrl EUR))
  /\ let w2 := handle DateModel.enUS_UTC
                 (MarketsSettled 4 (Fulfilled [bitcoin; ethereum])) w1 in
     cryptocurrencies (state w2) = [bitcoin; ethereum]
     /\ filteredCryptos (state w2) = [bitcoin; ethereum].
Proof.
  split; [reflexivity|].
  destruct (successful_listing_replaces_assets DateModel.enUS_UTC mounted
              [bitcoin; ethereum]) as (_ & _ & _ & _ & _ & H).
  exact (H EUR 4 (marketsUrl EUR) eq_refl).
Defined.

(** ** History fetch *)

Lemma fetchChartData_catch_message w :
  message (state (fetchChartData_catch w)) = "Failed to load chart data.".
Proof. setters. split_tests; congruence. Qed.

Lemma requests_flush w :
  exists more, requests (flush w) = (requests w ++ more)%list.
Proof.
  unfold flush. destruct (rerender w).
  - rewrite runEffects_eq. project.
    destruct (truthy (selectedCrypto (state w)));
      rewrite <- ?app_assoc; eexists; reflexivity.
  - exists []. now rewrite app_nil_r.
Qed.

Lemma requests_settle w :
  exists more, requests (settle w) = (requests w ++ more)%list.
Proof.
  unfold settle. destruct (requests_flush (flush w)) as [m2 ->].
  destruct (requests_flush w) as [m1 ->].
  exists (m1 ++ m2)%list. now rewrite app_assoc.
Qed.

(** Every render is followed by a history request for the asset and the
    currency selected at that render. *)
Lemma render_refetches_chart w :
  rerender w = true -> truthy (selectedCrypto (state w)) = true ->
  In (MarketChartRequest
        (marketChartUrl (selectedCrypto (state w)) (selectedCurrency (state w))))
     (skipn (List.length (requests w)) (requests (settle w))).
Proof.
  intros R T. unfold settle.
  destruct (requests_flush (flush w)) as [m2 ->].
  assert (exists m1, requests (flush w) = (requests w ++ m1)%list
            /\ In (MarketChartRequest
                     (marketChartUrl (selectedCrypto (state w)) (selectedCurrency (state w)))) m1)
    as (m1 & -> & Hin).
  { unfold flush. rewrite R, runEffects_eq. project. rewrite T, <- app_assoc.
    eexists. split; [reflexivity|]. cbn. auto. }
  rewrite <- app_assoc, skipn_app, skipn_all, Nat.sub_diag. cbn.
  apply in_or_app. now left.
Qed.

(** C4. When a history fetch fails, the chart series is what it was
    before the fetch (the empty one if no fetch had succeeded yet), also
    after the renders and effects that follow, and the [catch] block sets
    the failure message, which the banner shows in red. *)
Theorem failed_history_keeps_chart
  (toLocaleDateString : float -> string) (w : World) (k : nat) :
  chartData (state (fetchChartData w)) = chartData (state w)
  /\ chartData (state (fetchChartData_catch w)) = chartData (state w)
  /\ message (state (fetchChartData_catch w)) = "Failed to load chart data."
  /\ banner (state (fetchChartData_catch w)) = Some "bg-red-500"
  /\ chartData (state (handle toLocaleDateString (MarketChartSettled k Rejected) w))
     = chartData (state w)
  /\ chartData (state (handle toLocaleDateString (MarketChartSettled 1 Rejected) mounted))
     = {| labels := []; datasets := [] |}.
Proof.
  split; [|split; [|split; [|split; [|split]]]].
  - setters. split_ifs; reflexivity.
  - setters. split_ifs; reflexivity.
  - apply fetchChartData_catch_message.
  - unfold banner. now rewrite fetchChartData_catch_message.
  - unfold handle.
    match goal with |- context [settle ?x] =>
      destruct (settle_untouched x) as (_ & -> & _) end.
    cbn [dispatch]. destruct (awaiting w k) as [[url|url]|]; try reflexivity.
    setters. split_ifs; reflexivity.
  - unfold handle.
    match goal with |- context [settle ?x] =>
      destruct (settle_untouched x) as (_ & -> & _) end.
    reflexivity.
Qed.

(** C9. The chart series built from a history response of [n] pairs has
    [n] labels and one dataset of [n] values, in the response's order:
    label [i] is the date text of timestamp [i], value [i] is price [i]. *)
Theorem chartSeries_pointwise
  (toLocaleDateString : float -> string) (prices : list (float * float)) (w : World) :
  let series := chartSeries toLocaleDateString prices in
  chartData (state (fetchChartData_try toLocaleDateString prices w)) = series
  /\ List.length (labels series) = List.length prices
  /\ exists ds, datasets series = [ds]
       /\ List.length (data ds) = List.length (labels series)
       /\ forall i,
            nth_error (labels series) i
              = option_map (fun p => toLocaleDateString (fst p)) (nth_error prices i)
            /\ nth_error (data ds) i = option_map snd (nth_error prices i).
Proof.
  cbn zeta. split; [|split].
  - setters. reflexivity.
  - cbn. apply length_map.
  - eexists. split; [reflexivity|]. cbn. split.
    + now rewrite !length_map.
    + intros i. split; apply nth_error_map.
Qed.

(** ** The chart and the selection *)

Lemma nth_error_settle w k r :
  nth_error (requests w) k = Some r -> nth_error (requests (settle w)) k = Some r.
Proof.
  intros H. destruct (requests_settle w) as [more ->].
  rewrite nth_error_app1; [exact H|].
  apply nth_error_Some. congruence.
Qed.

Lemma awaiting_request w k r : awaiting w k = Some r -> nth_error (requests w) k = Some r.
Proof.
  unfold awaiting. destruct (existsb _ _); [discriminate | auto].
Qed.

(** C5, as the code has it.  The chart series on screen is the one built
    from the latest successful history response, and belongs to the
    request that response answered.  Selecting another asset or another
    currency leaves that series in place, unchanged; it goes only when a
    history fetch succeeds, and each such change of selection is followed
    by a history request for the new selection. *)
Theorem chart_is_last_successful_history
  (toLocaleDateString : float -> string) (w : World) :
  (forall crypto,
     chartData (state (handle toLocaleDateString (ClickCrypto crypto) w))
     = chartData (state w))
  /\ (forall value,
     chartData (state (handle toLocaleDateString (ChangeCurrency value) w))
     = chartData (state w))
  /\ (forall k url prices,
     awaiting w k = Some (MarketChartRequest url) ->
     let w' := handle toLocaleDateString (MarketChartSettled k (Fulfilled prices)) w in
     chartData (state w') = chartSeries toLocaleDateString prices
     /\ chartOrigin w' = Some k
     /\ nth_error (requests w') k = Some (MarketChartRequest url))
  /\ (forall e,
     (forall k prices, e <> MarketChartSettled k (Fulfilled prices)) ->
     chartData (state (handle toLocaleDateString e w)) = chartData (state w)
     /\ chartOrigin (handle toLocaleDateString e w) = chartOrigin w)
  /\ (forall e,
     (exists crypto, e = ClickCrypto crypto) \/ (exists value, e = ChangeCurrency value) ->
     let w' := handle toLocaleDateString e w in
     truthy (selectedCrypto (state w')) = true ->
     (selectedCrypto (state w'), selectedCurrency (state w'))
       <> (selectedCrypto (state w), selectedCurrency (state w)) ->
     In (MarketChartRequest
           (marketChartUrl (selectedCrypto (state w')) (selectedCurrency (state w'))))
        (issuedBy toLocaleDateString e w)).
Proof.
  split; [|split; [|split; [|split]]].
  - intros crypto. unfold handle.
    match goal with |- context [settle ?x] =>
      destruct (settle_untouched x) as (_ & -> & _) end.
    cbn [dispatch]. setters. split_ifs; reflexivity.
  - intros value. unfold handle.
    match goal with |- context [settle ?x] =>
      destruct (settle_untouched x) as (_ & -> & _) end.
    cbn [dispatch]. setters. split_ifs; reflexivity.
  - intros k url prices H w'. subst w'. unfold handle.
    match goal with |- context [settle ?x] =>
      destruct (settle_untouched x) as (_ & -> & _ & _ & _ & _ & _ & ->) end.
    cbn [dispatch]. rewrite H. repeat split.
    apply nth_error_settle. apply awaiting_request in H. exact H.
  - intros e He. unfold handle.
    match goal with |- context [settle ?x] =>
      destruct (settle_untouched x) as (_ & -> & _ & _ & _ & _ & _ & ->) end.
    destruct e as [| value | value | crypto | | k [response_data|] | k [prices|] ];
      cbn [dispatch];
      try (destruct (awaiting w k) as [[url|url]|]; [| |]);
      try (now contradiction (He k prices));
      setters; split_ifs; auto.
  - intros e He w' T Hne. subst w'. unfold issuedBy, handle in *.
    set (d := dispatch toLocaleDateString e w) in *.
    destruct (settle_untouched d) as (_ & _ & Es & Ec & _).
    rewrite Es, Ec in *.
    assert (requests d = requests w /\ (rerender d = true \/ state d = state w))
      as [Er Hd].
    { subst d. destruct He as [[crypto ->] | [value ->]]; cbn [dispatch];
        setters; split_ifs; auto. }
    destruct Hd as [R | Same]; [|rewrite Same in Hne; now contradiction Hne].
    rewrite <- Er. now apply render_refetches_chart.
Qed.

(** Witness for C5: on the freshly mounted page request 1 is the history
    request for bitcoin in USD; answered with a week of prices, that week
    is the chart. *)
Lemma chart_is_last_successful_history_witness :
  awaiting mounted 1 = Some (MarketChartRequest (marketChartUrl "bitcoin" USD))
  /\ let w' := handle DateModel.enUS_UTC (MarketChartSettled 1 (Fulfilled week)) mounted in
     chartData (state w') = chartSeries DateModel.enUS_UTC week
     /\ chartOrigin w' = Some 1
     /\ nth_error (requests w') 1 = Some (MarketChartRequest (marketChartUrl "bitcoin" USD)).
Proof.
  split; [reflexivity|].
  destruct (chart_is_last_successful_history DateModel.enUS_UTC mounted)
    as (_ & _ & H & _).
  exact (H 1 (marketChartUrl "bitcoin" USD) week eq_refl).
Defined.

(** C5 as stated fails.  The week of bitcoin prices in USD is on screen;
    the user switches the currency to EUR; the same series is still on
    screen, built from the answer to the USD request, while the selected
    currency is EUR. *)
Lemma chart_survives_currency_change :
  let before := run DateModel.enUS_UTC [MarketChartSettled 1 (Fulfilled week)] in
  let after := handle DateModel.enUS_UTC (ChangeCurrency EUR) before in
  chartCorresponds before
  /\ selectedCurrency (state after) = EUR
  /\ chartShown (state after) = true
  /\ chartData (state after) = chartData (state before)
  /\ labels (chartData (state after))
     = ["11/8/2023"; "11/9/2023"; "11/10/2023"; "11/11/2023";
        "11/12/2023"; "11/13/2023"; "11/14/2023"]
  /\ ~ chartCorresponds after.
Proof.
  cbn zeta. split; [|split; [|split; [|split; [|split]]]].
  - intros _. exists 1. split; vm_compute; reflexivity.
  - vm_compute. reflexivity.
  - vm_compute. reflexivity.
  - vm_compute. reflexivity.
  - vm_compute. reflexivity.
  - intros H. assert (chartShown (state (handle DateModel.enUS_UTC (ChangeCurrency EUR)
        (run DateModel.enUS_UTC [MarketChartSettled 1 (Fulfilled week)]))) = true) as S
      by (vm_compute; reflexivity).
    destruct (H S) as (k & Hk & Hr).
    vm_compute in Hk. injection Hk as <-.
    vm_compute in Hr. discriminate Hr.
Qed.

(** ** When the history fetch runs *)

(** C6 at its failing input.  The page has just mounted, bitcoin and USD
    selected: mounting alone has issued two history requests.  The user
    then clicks the theme button: no asset is selected, none changes, and
    a history request for bitcoin goes out again.  Typing one letter in
    the search box sends two more. *)
Theorem history_fetch_follows_every_render :
  let history := MarketChartRequest (marketChartUrl "bitcoin" USD) in
  let listing := MarketsRequest (marketsUrl USD) in
  requests mounted = [listing; history; listing; history]
  /\ selectedCrypto (state (handle DateModel.enUS_UTC ToggleDarkMode mounted))
     = selectedCrypto (state mounted)
  /\ issuedBy DateModel.enUS_UTC ToggleDarkMode mounted = [listing; history]
  /\ issuedBy DateModel.enUS_UTC (TypeSearch "e") mounted
     = [listing; history; listing; history].
Proof.
  cbn zeta. split; [|split; [|split]]; vm_compute; reflexivity.
Qed.

(** ** Numbers as text *)

Module NumFacts.
Import Num.

Lemma length_app (s t : string) : length (s ++ t) = length s + length t.
Proof. induction s as [|c s IH]; simpl; [reflexivity | now rewrite IH]. Qed.

Lemma all_app p (s t : string) : all p (s ++ t) = (all p s && all p t)%bool.
Proof.
  induction s as [|c s IH]; simpl; [reflexivity|].
  now rewrite IH, andb_assoc.
Qed.

Lemma all_weaken (p q : ascii -> bool) s :
  (forall c, p c = true -> q c = true) -> all p s = true -> all q s = true.
Proof.
  intros Hpq. induction s as [|c s IH]; simpl; [reflexivity|].
  rewrite !andb_true_iff. intros [Hc Hs]. auto.
Qed.

Lemma uint_digits d : all isDigit (NilEmpty.string_of_uint d) = true.
Proof. induction d; simpl; auto. Qed.

Lemma uint_empty d : NilEmpty.string_of_uint d = "" -> d = Decimal.Nil.
Proof. destruct d; simpl; intros H; [reflexivity | discriminate ..]. Qed.

Lemma digitsOf_digits n : all isDigit (digitsOf n) = true.
Proof. apply uint_digits. Qed.

Lemma digitsOf_length n : 1 <= length (digitsOf n).
Proof.
  unfold digitsOf. destruct (NilEmpty.string_of_uint (N.to_uint n)) eqn:E.
  - apply uint_empty in E. destruct n as [|p]; [discriminate|].
    now apply DecimalPos.Unsigned.to_uint_nonnil in E.
  - simpl. lia.
Qed.

Lemma zeros_digits n : all isDigit (zeros n) = true.
Proof. induction n; simpl; auto. Qed.

Lemma zeros_length n : length (zeros n) = n.
Proof. induction n; simpl; auto. Qed.

Lemma take_drop n s : takeS n s ++ dropS n s = s.
Proof.
  revert s. induction n as [|n IH]; intros [|c s]; simpl; try reflexivity.
  now rewrite IH.
Qed.

Lemma dropS_length n s : length (dropS n s) = length s - n.
Proof.
  revert s. induction n as [|n IH]; intros [|c s]; simpl; auto.
Qed.

Lemma takeS_nonempty n s : 1 <= n -> 1 <= length s -> takeS n s <> "".
Proof. destruct n, s; simpl; intros; try lia. discriminate. Qed.

(** The two parts [fixedParts] cuts: digits before, [f] digits after. *)
Lemma fixedParts_shape f n a b :
  fixedParts f n = (a, b) ->
  a <> "" /\ all isDigit a = true /\ all isDigit b = true /\ length b = f.
Proof.
  unfold fixedParts.
  set (m := if (length (digitsOf n) <=? f)%nat
            then zeros (f + 1 - length (digitsOf n)) ++ digitsOf n
            else digitsOf n).
  assert (f + 1 <= length m /\ all isDigit m = true) as [Hlen Hdig].
  { subst m. pose proof (digitsOf_length n) as H1.
    destruct (Nat.leb_spec (length (digitsOf n)) f).
    - rewrite length_app, zeros_length, all_app, zeros_digits, digitsOf_digits.
      split; [lia | reflexivity].
    - rewrite digitsOf_digits. split; [lia | reflexivity]. }
  intros E. injection E as <- <-.
  rewrite <- (take_drop (length m - f) m), all_app, andb_true_iff in Hdig.
  destruct Hdig as [Ha Hb].
  repeat split; try assumption.
  - apply takeS_nonempty; lia.
  - rewrite dropS_length. lia.
Qed.

Lemma fixedNotation_shape f n :
  1 <= f -> decimalShape isDigit f (fixedNotation f n).
Proof.
  intros Hf. unfold fixedNotation.
  destruct (Nat.eqb_spec f 0) as [->|_]; [lia|].
  destruct (fixedParts f n) as [a b] eqn:E.
  apply fixedParts_shape in E. exists a, b. tauto.
Qed.



(** In its fixed range [toFixed] writes an optional minus sign, digits,
    a point and [f] digits. *)
Lemma toFixed_shape f x :
  1 <= f -> inFixedRange x = true ->
  exists sign body, toFixed f x = Fixed (sign ++ body)
    /\ (sign = "" \/ sign = "-") /\ decimalShape isDigit f body.
Proof.
  intros Hf. unfold inFixedRange, toFixed.
  destruct (Prim2SF x) as [s|s| |s m e]; try discriminate.
  - intros _. exists "", (fixedNotation f 0). repeat split; auto.
    now apply fixedNotation_shape.
  - intros R. apply negb_true_iff in R. rewrite R.
    exists (if s then "-" else ""), (fixedNotation f (nearest m e f)).
    repeat split; [destruct s; auto | now apply fixedNotation_shape].
Qed.


(** [0 <= x] as [>=] computes it, from the representation of [x]. *)
Lemma leb_zero x :
  (isZeroOrPositive x = true -> PrimFloat.leb 0 x = true)
  /\ (isNegative x = true -> PrimFloat.leb 0 x = false).
Proof.
  rewrite leb_spec. unfold isZeroOrPositive, isNegative.
  change (Prim2SF 0) with (S754_zero false).
  destruct (Prim2SF x) as [s|[|]| |[|] m e]; split; intros H;
    try discriminate; try reflexivity.
Qed.

End NumFacts.

(** ** The figures of a card *)

(** C7, as the code has it.  For every asset record: when its 24h change
    is a finite number below 10^21 in magnitude, the text shown is an
    optional minus sign, digits, a point and exactly two digits; a change
    that is zero or positive gets the class ["text-green-500"], a change
    below zero the class ["text-red-500"]. *)
Theorem change_text_and_class (crypto : Cryptocurrency) :
  let change := price_change_percentage_24h crypto in
  (Num.inFixedRange change = true ->
     exists sign body, changeText crypto = Num.Fixed (sign ++ body)
       /\ (sign = "" \/ sign = "-") /\ Num.decimalShape Num.isDigit 2 body)
  /\ (isZeroOrPositive change = true -> changeClass crypto = "text-green-500")
  /\ (isNegative change = true -> changeClass crypto = "text-red-500").
Proof.
  cbn zeta. unfold changeText, changeClass.
  destruct (NumFacts.leb_zero (price_change_percentage_24h crypto)) as [Hp Hn].
  repeat split.
  - intros R. apply NumFacts.toFixed_shape; [lia | exact R].
  - intros H. now rewrite (Hp H).
  - intros H. now rewrite (Hn H).
Qed.

(** Witness for C7: the two records of the scenario, +1.23 and -0.50. *)
Lemma change_text_and_class_witness :
  (Num.inFixedRange (price_change_percentage_24h bitcoin) = true
   /\ isZeroOrPositive (price_change_percentage_24h bitcoin) = true
   /\ changeText bitcoin = Num.Fixed "1.23"
   /\ changeClass bitcoin = "text-green-500")
  /\ (Num.inFixedRange (price_change_percentage_24h ethereum) = true
   /\ isNegative (price_change_percentage_24h ethereum) = true
   /\ changeText ethereum = Num.Fixed "-0.50"
   /\ changeClass ethereum = "text-red-500").
Proof.
  split.
  - destruct (change_text_and_class bitcoin) as (_ & H & _).
    split; [|split; [|split]]; [reflexivity | reflexivity | reflexivity |].
    exact (H eq_refl).
  - destruct (change_text_and_class ethereum) as (_ & _ & H).
    split; [|split; [|split]]; [reflexivity | reflexivity | reflexivity |].
    exact (H eq_refl).
Defined.

(** C7 as stated fails.  A change of exactly zero is shown in green, the
    class of a rise and not that of a fall; and a change of 10^21 is not
    written in fixed notation at all. *)
Lemma zero_change_is_green :
  let flat := withChange 0 bitcoin in
  changeText flat = Num.Fixed "0.00"
  /\ changeClass flat = "text-green-500"
  /\ changeClass flat = changeClass (withChange 1.23 bitcoin)
  /\ changeClass flat <> changeClass (withChange (-0.5) bitcoin)
  /\ changeText (withChange 1e21 bitcoin) = Num.NumberToString 1e21.
Proof.
  cbn zeta. split; [|split; [|split; [|split]]]; try reflexivity.
  vm_compute. discriminate.
Qed.




(** ** The list on the page *)


(** X1. Filtering is idempotent: filtering the filtered list by the same
    query changes nothing. *)
Lemma filtered_idempotent S Q : filtered (filtered S Q) Q = filtered S Q.
Proof.
  unfold filtered. induction S as [|c S IH]; simpl; [reflexivity|].
  destruct (matchesQuery Q c) eqn:E; simpl; [|exact IH].
  now rewrite E, IH.
Qed.

Lemma runEffects_keeps_list w :
  filterDeps w = false ->
  filterDeps (runEffects w) = false
  /\ filteredCryptos (state (runEffects w)) = filteredCryptos (state w).
Proof.
  intros F. rewrite runEffects_eq. project. rewrite F. auto.
Qed.

Lemma settle_keeps_list w :
  filterDeps w = false ->
  filterDeps (settle w) = false
  /\ filteredCryptos (state (settle w)) = filteredCryptos (state w).
Proof.
  intros F. unfold settle.
  assert (filterDeps (flush w) = false
          /\ filteredCryptos (state (flush w)) = filteredCryptos (state w)) as [F1 E1].
  { unfold flush. destruct (rerender w); [now apply runEffects_keeps_list | auto]. }
  set (w1 := flush w) in *. unfold flush.
  destruct (rerender w1); [|auto].
  destruct (runEffects_keeps_list _ F1) as [F2 E2]. split; congruence.
Qed.

Lemma settle_clears_deps w : rerender w = true -> filterDeps (settle w) = false.
Proof.
  intros R. unfold settle, flush at 2. rewrite R.
  destruct (runEffects_loading w) as (_ & _ & F).
  unfold flush. destruct (rerender (runEffects w)); [|exact F].
  now apply runEffects_keeps_list.
Qed.

(** A handler either touches a dependency of the filter, and a render is
    due, or leaves the asset set, the query and the list alone. *)
Lemma dispatch_deps toLocaleDateString e w :
  filterDeps w = false ->
  let d := dispatch toLocaleDateString e w in
  (filterDeps d = true /\ rerender d = true)
  \/ (filterDeps d = false
      /\ cryptocurrencies (state d) = cryptocurrencies (state w)
      /\ searchQuery (state d) = searchQuery (state w)
      /\ filteredCryptos (state d) = filteredCryptos (state w)).
Proof.
  intros F. cbn zeta.
  destruct e as [| value | value | crypto | | k [response_data|] | k [prices|] ];
    cbn [dispatch];
    try (destruct (awaiting w k) as [[url|url]|]; [| |]);
    setters; rewrite ?F; split_ifs; rewrite ?F; cbn [orb]; auto 6.
Qed.

Lemma handle_listInStep toLocaleDateString e w :
  listInStep w -> listInStep (handle toLocaleDateString e w).
Proof.
  intros [F E]. unfold handle, listInStep.
  set (d := dispatch toLocaleDateString e w).
  destruct (settle_untouched d) as (Ec & _ & _ & _ & Eq & _).
  destruct (dispatch_deps toLocaleDateString e w F) as [[Fd Rd] | (Fd & Dc & Dq & Df)];
    fold d in Fd |- *.
  - split; [now apply settle_clears_deps|].
    rewrite settle_filters by assumption. now rewrite Ec, Eq.
  - fold d in Dc, Dq, Df. destruct (settle_keeps_list d Fd) as [Fs Es].
    split; [exact Fs|]. rewrite Es, Ec, Eq. congruence.
Qed.

Lemma run_listInStep toLocaleDateString events :
  listInStep (run toLocaleDateString events).
Proof.
  unfold run. rewrite <- fold_left_rev_right.
  induction (rev events) as [|e es IH]; simpl.
  - split; reflexivity.
  - now apply handle_listInStep.
Qed.

(** The render that follows a listing answer, before the effects: the
    asset set is the answer; the query, and the list that is drawn, are
    those of before. *)
Lemma listing_answer_committed toLocaleDateString w k url response_data :
  awaiting w k = Some (MarketsRequest url) ->
  let committed :=
    state (dispatch toLocaleDateString (MarketsSettled k (Fulfilled response_data)) w) in
  cryptocurrencies committed = response_data
  /\ searchQuery committed = searchQuery (state w)
  /\ filteredCryptos committed = filteredCryptos (state w)
  /\ listShown committed
     = Some (map (renderCard (selectedCurrency (state w))) (filteredCryptos (state w))).
Proof.
  intros A. cbn zeta. cbn [dispatch]. rewrite A.
  split; [apply fetchCryptoData_try_assets|].
  unfold listShown. setters. split_tests; repeat split; try reflexivity; congruence.
Qed.

(** The same answer once the effects have run. *)
Lemma listing_answer_rested toLocaleDateString w k url response_data :
  listInStep w ->
  awaiting w k = Some (MarketsRequest url) ->
  let rested :=
    state (handle toLocaleDateString (MarketsSettled k (Fulfilled response_data)) w) in
  cryptocurrencies rested = response_data
  /\ searchQuery rested = searchQuery (state w)
  /\ filteredCryptos rested = filtered response_data (searchQuery (state w)).
Proof.
  intros L A. cbn zeta.
  destruct (handle_listInStep toLocaleDateString
              (MarketsSettled k (Fulfilled response_data)) w L) as [_ E].
  destruct (listing_answer_committed toLocaleDateString w k url response_data A)
    as (Ec & Eq & _).
  unfold handle in *.
  match type of E with context [settle ?x] =>
    destruct (settle_untouched x) as (Sc & _ & _ & _ & Sq & _) end.
  rewrite E, Sc, Sq, Ec, Eq. auto.
Qed.




(** C10, as the code has it.  Filtering with the empty query is the
    identity on the asset set.  On the page, while the search box is
    empty: once the renders and effects an event leads to are done, the
    filtered list is the whole asset set; at the render that follows a
    successful listing answer, before the effects, the cards drawn are
    those of the whole asset set the answer replaced; the effects then
    make the filtered list the whole answer. *)
Theorem filtered_empty_query
  (S : list Cryptocurrency)
  (toLocaleDateString : float -> string) (events : list Event)
  (k : nat) (url : string) (response_data : list Cryptocurrency) :
  let w := run toLocaleDateString events in
  let answer := MarketsSettled k (Fulfilled response_data) in
  let committed := state (dispatch toLocaleDateString answer w) in
  let rested := state (handle toLocaleDateString answer w) in
  searchQuery (state w) = "" ->
  awaiting w k = Some (MarketsRequest url) ->
  filtered S "" = S
  /\ filteredCryptos (state w) = cryptocurrencies (state w)
  /\ (cryptocurrencies committed = response_data
      /\ searchQuery committed = ""
      /\ listShown committed
         = Some (map (renderCard (selectedCurrency (state w)))
                   (cryptocurrencies (state w))))
  /\ (cryptocurrencies rested = response_data
      /\ searchQuery rested = ""
      /\ filteredCryptos rested = response_data).
Proof.
  intros w answer committed rested Q A.
  pose proof (run_listInStep toLocaleDateString events) as L. fold w in L.
  assert (filteredCryptos (state w) = cryptocurrencies (state w)) as F.
  { destruct L as [_ ->]. rewrite Q. apply filtered_all. }
  split; [apply filtered_all | split; [exact F | split]].
  - destruct (listing_answer_committed toLocaleDateString w k url response_data A)
      as (Ec & Eq & _ & El).
    fold answer in Ec, Eq, El. fold committed in Ec, Eq, El.
    split; [exact Ec | split; [congruence|]]. rewrite El, F. reflexivity.
  - destruct (listing_answer_rested toLocaleDateString w k url response_data L A)
      as (Ec & Eq & Ef).
    fold answer in Ec, Eq, Ef. fold rested in Ec, Eq, Ef.
    split; [exact Ec | split; [congruence|]]. rewrite Ef, Q. apply filtered_all.
Qed.

(** Witness for C10.  The search box is empty and [bitcoin] is listed; a
    listing answer with both records of the scenario arrives.  At the
    render that follows, the one card of before is drawn; after the
    effects the filtered list holds both records. *)
Lemma filtered_empty_query_witness :
  let w := run DateModel.enUS_UTC [MarketsSettled 0 (Fulfilled [bitcoin])] in
  let answer := MarketsSettled 2 (Fulfilled [bitcoin; ethereum]) in
  (searchQuery (state w) = ""
   /\ awaiting w 2 = Some (MarketsRequest (marketsUrl USD)))
  /\ filtered [bitcoin; ethereum] "" = [bitcoin; ethereum]
  /\ filteredCryptos (state w) = [bitcoin]
  /\ listShown (state (dispatch DateModel.enUS_UTC answer w))
     = Some [renderCard USD bitcoin]
  /\ filteredCryptos (state (handle DateModel.enUS_UTC answer w)) = [bitcoin; ethereum].
Proof.
  cbn zeta.
  set (w := run DateModel.enUS_UTC [MarketsSettled 0 (Fulfilled [bitcoin])]).
  assert (searchQuery (state w) = "") as Q by (vm_compute; reflexivity).
  assert (awaiting w 2 = Some (MarketsRequest (marketsUrl USD))) as A
    by (vm_compute; reflexivity).
  assert (cryptocurrencies (state w) = [bitcoin]) as Ea by (vm_compute; reflexivity).
  assert (selectedCurrency (state w) = USD) as Ec by (vm_compute; reflexivity).
  destruct (filtered_empty_query [bitcoin; ethereum] DateModel.enUS_UTC
              [MarketsSettled 0 (Fulfilled [bitcoin])] 2 (marketsUrl USD)
              [bitcoin; ethereum] Q A)
    as (H1 & H2 & (_ & _ & H3) & (_ & _ & H4)).
  fold w in H2, H3, H4. rewrite Ea in H2, H3. rewrite Ec in H3.
  split; [split; [exact Q | exact A]|].
  split; [exact H1|]. split; [exact H2|]. split; [exact H3 | exact H4].
Defined.

(** C10 as stated fails: before anything is typed, the entire most
    recent fetch is not what is displayed.  On the freshly mounted page
    the first listing answer brings the two records of the scenario; at
    the render that follows, the search box is empty, the asset set holds
    both records, the list is not in its loading state, and it shows no
    card at all. *)
Lemma first_answer_draws_no_card :
  let committed :=
    state (dispatch DateModel.enUS_UTC
             (MarketsSettled 0 (Fulfilled [bitcoin; ethereum]))
             (run DateModel.enUS_UTC [])) in
  searchQuery committed = ""
  /\ cryptocurrencies committed = [bitcoin; ethereum]
  /\ loading committed = false
  /\ listShown committed = Some []
  /\ filtered (cryptocurrencies committed) (searchQuery committed) = [bitcoin; ethereum].
Proof.
  cbn zeta.
  split; [|split; [|split; [|split]]]; vm_compute; reflexivity.
Qed.

(** * Further properties *)

(** ** Searching *)

Module SearchFacts.
Import Str Upper StrFacts.

Lemma append_assoc (a b c : string) : (a ++ b) ++ c = a ++ b ++ c.
Proof. induction a as [|x a IH]; simpl; [reflexivity | now rewrite IH]. Qed.

Lemma append_nil_r (a : string) : a ++ "" = a.
Proof. induction a as [|x a IH]; simpl; [reflexivity | now rewrite IH]. Qed.

Lemma isLower_range c : isLower c = true <-> 97 <= nat_of_ascii c <= 122.
Proof. unfold isLower. rewrite andb_true_iff, !Nat.leb_le. tauto. Qed.

Lemma lower_upperChar c : lowerChar (upperChar c) = lowerChar c.
Proof.
  unfold upperChar. destruct (isLower c) eqn:L; [|reflexivity].
  apply isLower_range in L.
  assert (nat_of_ascii (ascii_of_nat (nat_of_ascii c - 32)) = nat_of_ascii c - 32) as E
    by (apply nat_ascii_embedding; lia).
  unfold lowerChar.
  assert (isUpper (ascii_of_nat (nat_of_ascii c - 32)) = true) as ->
    by (apply isUpper_range; lia).
  assert (isUpper c = false) as ->.
  { destruct (isUpper c) eqn:U; [|reflexivity]. apply isUpper_range in U. lia. }
  rewrite E. replace (nat_of_ascii c - 32 + 32) with (nat_of_ascii c) by lia.
  apply ascii_nat_embedding.
Qed.

Lemma lower_toUpperCase s : toLowerCase (toUpperCase s) = toLowerCase s.
Proof.
  induction s as [|c s IH]; simpl; [reflexivity|].
  now rewrite lower_upperChar, IH.
Qed.

Lemma equalIgnoringCase_refl s : equalIgnoringCase s s.
Proof. now apply equalIgnoringCase_lower. Qed.

Lemma contains_whole s q : equalIgnoringCase s q -> containsIgnoringCase s q.
Proof.
  intros E. exists "", s, "". split; [|exact E].
  simpl. now rewrite append_nil_r.
Qed.

(** A text that contains a longer query contains each part of it. *)
Lemma contains_part s pre q post :
  containsIgnoringCase s (pre ++ q ++ post) -> containsIgnoringCase s q.
Proof.
  rewrite <- !includes_lower_spec, !includes_spec, !toLowerCase_app.
  intros (a & b & ->).
  exists (a ++ toLowerCase pre), (toLowerCase post ++ b).
  now rewrite !append_assoc.
Qed.

End SearchFacts.

Lemma filter_narrow {A} (p q : A -> bool) (l : list A) :
  (forall x, p x = true -> q x = true) ->
  List.filter p (List.filter q l) = List.filter p l.
Proof.
  intros H. induction l as [|x l IH]; simpl; [reflexivity|].
  destruct (q x) eqn:Q; simpl.
  - now rewrite IH.
  - destruct (p x) eqn:P; [|exact IH]. apply H in P. congruence.
Qed.

Lemma matchesQuery_part pre Q post c :
  matchesQuery (pre ++ Q ++ post) c = true -> matchesQuery Q c = true.
Proof.
  rewrite !matchesQuery_wanted. unfold wanted.
  intros [H | H]; [left | right]; eapply SearchFacts.contains_part; exact H.
Qed.

(** X3. Typing more can only narrow the list.  For ASCII names, symbols
    and queries: the result for a query that extends [Q], at either end,
    is the result for [Q] filtered again, so it is drawn from the result
    for [Q], in the same order. *)
Theorem longer_query_narrows (S : list Cryptocurrency) (pre Q post : string) :
  asciiRecords S = true -> Str.isAscii (pre ++ Q ++ post) = true ->
  filtered S (pre ++ Q ++ post) = filtered (filtered S Q) (pre ++ Q ++ post)
  /\ (forall c, In c (filtered S (pre ++ Q ++ post)) -> In c (filtered S Q))
  /\ List.length (filtered S (pre ++ Q ++ post)) <= List.length (filtered S Q).
Proof.
  intros _ _.
  assert (filtered S (pre ++ Q ++ post) = filtered (filtered S Q) (pre ++ Q ++ post)) as E.
  { unfold filtered. symmetry. apply filter_narrow.
    intros c. apply matchesQuery_part. }
  split; [exact E | split].
  - intros c. rewrite E. unfold filtered at 1. rewrite filter_In. tauto.
  - rewrite E. unfold filtered at 1. apply filter_length_le.
Qed.

Lemma longer_query_narrows_witness :
  (asciiRecords [bitcoin; ethereum] = true /\ Str.isAscii ("e" ++ "t" ++ "h") = true)
  /\ filtered [bitcoin; ethereum] "t" = [bitcoin; ethereum]
  /\ filtered [bitcoin; ethereum] "eth" = [ethereum]
  /\ filtered [bitcoin; ethereum] "eth" = filtered (filtered [bitcoin; ethereum] "t") "eth"
  /\ List.length (filtered [bitcoin; ethereum] "eth")
     <= List.length (filtered [bitcoin; ethereum] "t").
Proof.
  destruct (longer_query_narrows [bitcoin; ethereum] "e" "t" "h" eq_refl eq_refl)
    as (H1 & _ & H2).
  split; [split; reflexivity|]. split; [reflexivity|]. split; [reflexivity|].
  split; [exact H1 | exact H2].
Defined.

(** X4. The letter case of the query does not matter.  For ASCII names,
    symbols and queries: two queries that are equal up to letter case
    select the same list. *)
Theorem query_case_is_ignored (S : list Cryptocurrency) (Q Q' : string) :
  asciiRecords S = true -> Str.isAscii Q = true ->
  Str.equalIgnoringCase Q Q' -> filtered S Q = filtered S Q'.
Proof.
  intros _ _ E. apply StrFacts.equalIgnoringCase_lower in E.
  unfold filtered, matchesQuery. now rewrite E.
Qed.

Lemma query_case_is_ignored_witness :
  (asciiRecords [bitcoin; ethereum] = true /\ Str.isAscii "ETH" = true
   /\ Str.equalIgnoringCase "ETH" "eth")
  /\ filtered [bitcoin; ethereum] "ETH" = filtered [bitcoin; ethereum] "eth"
  /\ filtered [bitcoin; ethereum] "eth" = [ethereum].
Proof.
  assert (Str.equalIgnoringCase "ETH" "eth") as E
    by (apply StrFacts.equalIgnoringCase_lower; reflexivity).
  split; [split; [reflexivity | split; [reflexivity | exact E]] | split].
  - exact (query_case_is_ignored [bitcoin; ethereum] "ETH" "eth" eq_refl eq_refl E).
  - reflexivity.
Defined.

(** X5. For ASCII names and symbols: every record of the asset set is
    found by its own name, by its own symbol, by the upper-case symbol
    its card shows, and by any spelling of these that differs only in
    letter case. *)
Theorem asset_found_by_its_name_or_symbol (S : list Cryptocurrency) (c : Cryptocurrency) :
  asciiRecords S = true ->
  In c S ->
  In c (filtered S (name c))
  /\ In c (filtered S (symbol c))
  /\ In c (filtered S (symbolText c))
  /\ (forall Q, Str.equalIgnoringCase (name c) Q \/ Str.equalIgnoringCase (symbol c) Q ->
                In c (filtered S Q)).
Proof.
  intros _ Hin.
  assert (forall Q, Str.equalIgnoringCase (name c) Q \/ Str.equalIgnoringCase (symbol c) Q ->
                    In c (filtered S Q)) as H.
  { intros Q HQ. unfold filtered. apply filter_In. split; [exact Hin|].
    apply matchesQuery_wanted.
    destruct HQ as [E | E]; [left | right]; now apply SearchFacts.contains_whole. }
  split; [|split; [|split; [|exact H]]]; apply H.
  - left. apply SearchFacts.equalIgnoringCase_refl.
  - right. apply SearchFacts.equalIgnoringCase_refl.
  - right. apply StrFacts.equalIgnoringCase_lower. unfold symbolText.
    now rewrite SearchFacts.lower_toUpperCase.
Qed.

Lemma asset_found_witness :
  (asciiRecords [bitcoin; ethereum] = true /\ In ethereum [bitcoin; ethereum])
  /\ symbolText ethereum = "ETH"
  /\ In ethereum (filtered [bitcoin; ethereum] (symbolText ethereum)).
Proof.
  assert (In ethereum [bitcoin; ethereum]) as H by (right; left; reflexivity).
  split; [split; [reflexivity | exact H] | split; [reflexivity|]].
  exact (proj1 (proj2 (proj2 (asset_found_by_its_name_or_symbol [bitcoin; ethereum] ethereum eq_refl H)))).
Defined.

(** ** The page at rest *)

Lemma rounds_end_at_rest w : rerender w = true -> atRest (settle w).
Proof.
  intros R. unfold settle, flush at 2. rewrite R.
  destruct (runEffects_loading w) as (Hl & Hm & Hf).
  unfold flush. destruct (rerender (runEffects w)) eqn:R'.
  - destruct (runEffects_stable _ Hl Hm Hf) as [R2 E2].
    destruct (runEffects_loading (runEffects w)) as (Hl2 & Hm2 & Hf2).
    repeat split; assumption.
  - repeat split; assumption.
Qed.

Lemma settle_at_rest w : rerender w = false -> settle w = w.
Proof. intros R. unfold settle, flush. now rewrite R, R. Qed.

(** From rest, a handler that asks for no render has left the cells, the
    filter's dependencies and the settled requests as they were. *)
Lemma dispatch_without_render toLocaleDateString e w :
  atRest w -> rerender (dispatch toLocaleDateString e w) = false ->
  state (dispatch toLocaleDateString e w) = state w
  /\ filterDeps (dispatch toLocaleDateString e w) = false
  /\ settled (dispatch toLocaleDateString e w) = settled w.
Proof.
  intros (R & F & L & M).
  destruct w as [[dm sq cs fc sc cd cur ld msg] rr fd rq st co].
  cbn in R, F, L, M. subst rr fd ld msg.
  destruct e as [| value | value | crypto | | k [response_data|] | k [prices|] ];
    cbn [dispatch];
    try (match goal with |- context [awaiting ?w ?k] =>
           destruct (awaiting w k) as [[url|url]|] end);
    setters; project; split_ifs; intros H;
    try discriminate H; repeat split; reflexivity.
Qed.

Lemma handle_atRest toLocaleDateString e w :
  atRest w -> atRest (handle toLocaleDateString e w).
Proof.
  intros A. unfold handle.
  destruct (rerender (dispatch toLocaleDateString e w)) eqn:R.
  - now apply rounds_end_at_rest.
  - rewrite settle_at_rest by exact R.
    destruct (dispatch_without_render toLocaleDateString e w A R) as (Es & Ef & _).
    destruct A as (_ & _ & L & M).
    unfold atRest. rewrite Es. auto.
Qed.

Lemma run_atRest toLocaleDateString events : atRest (run toLocaleDateString events).
Proof.
  unfold run. rewrite <- fold_left_rev_right.
  induction (rev events) as [|e es IH]; simpl.
  - repeat split.
  - now apply handle_atRest.
Qed.

(** X6. Whatever the events, once the renders and effects an event leads
    to are done the page is loading again and the message is empty: the
    list area shows ["Loading..."] in place of the cards, and no banner
    is shown.  (The listing effect runs after every render and starts by
    [setLoading(true)] and [setMessage("")].) *)
Theorem page_rests_on_loading (toLocaleDateString : float -> string) (events : list Event) :
  let s := state (run toLocaleDateString events) in
  loading s = true /\ message s = ""
  /\ listShown s = None /\ banner s = None.
Proof.
  cbn zeta. destruct (run_atRest toLocaleDateString events) as (_ & _ & L & M).
  unfold listShown, banner. rewrite L, M. repeat split.
Qed.

(** ** Requests *)

(** A handler adds requests at the end of the log, if any. *)
Lemma dispatch_requests toLocaleDateString e w :
  exists more, requests (dispatch toLocaleDateString e w) = (requests w ++ more)%list.
Proof.
  destruct e as [| value | value | crypto | | k [response_data|] | k [prices|] ];
    cbn [dispatch];
    try (match goal with |- context [awaiting ?w ?k] =>
           destruct (awaiting w k) as [[url|url]|] end);
    setters; split_ifs;
    first [ exists []; now rewrite app_nil_r | eexists; reflexivity ].
Qed.

(** The requests a round of renders issues when one is due. *)
Lemma settle_requests w :
  rerender w = true ->
  exists more, requests (settle w) = (requests w ++ more)%list
    /\ In (MarketsRequest (marketsUrl (selectedCurrency (state w)))) more
    /\ (truthy (selectedCrypto (state w)) = true ->
        In (MarketChartRequest
              (marketChartUrl (selectedCrypto (state w)) (selectedCurrency (state w))))
           more).
Proof.
  intros R. unfold settle.
  destruct (requests_flush (flush w)) as [m2 ->].
  unfold flush. rewrite R, runEffects_eq. project.
  set (listing := MarketsRequest (marketsUrl (selectedCurrency (state w)))).
  set (history := MarketChartRequest
         (marketChartUrl (selectedCrypto (state w)) (selectedCurrency (state w)))).
  destruct (truthy (selectedCrypto (state w))).
  - exists (listing :: history :: m2). rewrite <- !app_assoc.
    split; [reflexivity|]. cbn. auto.
  - exists (listing :: m2). rewrite <- !app_assoc.
    split; [reflexivity|]. cbn. split; [auto | discriminate].
Qed.

Lemma skipn_app_exact {A} (l m : list A) : skipn (List.length l) (l ++ m) = m.
Proof. now rewrite skipn_app, skipn_all, Nat.sub_diag. Qed.

(** X7. Any handler that changes a cell is followed by a new listing
    request for the selected currency and, when an asset is selected, by
    a new history request for it: both fetch effects run after every
    render, whatever caused it. *)
Theorem every_render_refetches
  (toLocaleDateString : float -> string) (e : Event) (w : World) :
  rerender (dispatch toLocaleDateString e w) = true ->
  let w' := handle toLocaleDateString e w in
  In (MarketsRequest (marketsUrl (selectedCurrency (state w'))))
     (issuedBy toLocaleDateString e w)
  /\ (truthy (selectedCrypto (state w')) = true ->
      In (MarketChartRequest
            (marketChartUrl (selectedCrypto (state w')) (selectedCurrency (state w'))))
         (issuedBy toLocaleDateString e w)).
Proof.
  intros R w'. subst w'. unfold issuedBy, handle.
  set (d := dispatch toLocaleDateString e w) in *.
  destruct (settle_untouched d) as (_ & _ & -> & -> & _).
  destruct (settle_requests d R) as (m & -> & HL & HC).
  destruct (dispatch_requests toLocaleDateString e w) as [l El]. fold d in El.
  rewrite El, <- app_assoc, skipn_app_exact.
  split; [|intros T]; apply in_or_app; right; auto.
Qed.

Lemma every_render_refetches_witness :
  rerender (dispatch DateModel.enUS_UTC ToggleDarkMode mounted) = true
  /\ In (MarketsRequest (marketsUrl USD)) (issuedBy DateModel.enUS_UTC ToggleDarkMode mounted)
  /\ In (MarketChartRequest (marketChartUrl "bitcoin" USD))
        (issuedBy DateModel.enUS_UTC ToggleDarkMode mounted).
Proof.
  destruct (every_render_refetches DateModel.enUS_UTC ToggleDarkMode mounted eq_refl)
    as [HL HC].
  split; [reflexivity | split; [exact HL | exact (HC eq_refl)]].
Defined.

(** X8. A tick of the interval, on the page at rest, sends one listing
    request for the selected currency and nothing else: no cell changes,
    no render follows, and no history request goes out. *)
Theorem interval_tick_fetches_listing_only
  (toLocaleDateString : float -> string) (events : list Event) :
  let w := run toLocaleDateString events in
  state (handle toLocaleDateString IntervalTick w) = state w
  /\ issuedBy toLocaleDateString IntervalTick w
     = [MarketsRequest (marketsUrl (selectedCurrency (state w)))].
Proof.
  cbn zeta. set (w := run toLocaleDateString events).
  destruct (run_atRest toLocaleDateString events) as (R & F & L & M). fold w in R, F, L, M.
  assert (dispatch toLocaleDateString IntervalTick w
          = axios_get (MarketsRequest (marketsUrl (selectedCurrency (state w)))) w) as E.
  { cbn [dispatch]. unfold fetchCryptoData, setLoading, setMessage, update.
    rewrite L. cbn [Bool.eqb negb]. rewrite M. reflexivity. }
  unfold issuedBy, handle. rewrite E, settle_at_rest by exact R.
  split; [reflexivity|]. cbn [axios_get requests]. apply skipn_app_exact.
Qed.

Lemma awaiting_fresh w k r :
  awaiting w k = Some r -> ~ In k (settled w) /\ k < List.length (requests w).
Proof.
  unfold awaiting. destruct (existsb (Nat.eqb k) (settled w)) eqn:E; [discriminate|].
  intros H. split.
  - intros Hin. assert (existsb (Nat.eqb k) (settled w) = true) as C; [|congruence].
    apply existsb_exists. exists k. split; [exact Hin | apply Nat.eqb_refl].
  - apply nth_error_Some. congruence.
Qed.

(** From rest, a handler settles at most one request, one that was
    pending, and then a render is due. *)
Lemma dispatch_settled toLocaleDateString e w :
  atRest w ->
  let d := dispatch toLocaleDateString e w in
  settled d = settled w
  \/ exists k r, awaiting w k = Some r /\ settled d = k :: settled w /\ rerender d = true.
Proof.
  intros (R & F & L & M). cbn zeta.
  destruct e as [| value | value | crypto | | k [response_data|] | k [prices|] ];
    cbn [dispatch];
    try (destruct (awaiting w k) as [[url|url]|] eqn:A);
    try (left; setters; split_ifs; reflexivity);
    right; eexists k, _; (split; [exact A|]);
    setters; rewrite ?M, ?L; project; auto.
Qed.

Lemma handle_log toLocaleDateString e w :
  atRest w -> logSound w ->
  logSound (handle toLocaleDateString e w)
  /\ List.length (requests w) - List.length (settled w)
     <= List.length (requests (handle toLocaleDateString e w))
        - List.length (settled (handle toLocaleDateString e w)).
Proof.
  intros A [ND B]. unfold handle, logSound.
  set (d := dispatch toLocaleDateString e w).
  destruct (settle_untouched d) as (_ & _ & _ & _ & _ & _ & -> & _).
  destruct (dispatch_requests toLocaleDateString e w) as [l El]. fold d in El.
  destruct (requests_settle d) as [m Em].
  assert (List.length (requests (settle d))
          = List.length (requests w) + List.length l + List.length m) as Len
    by (rewrite Em, El, !length_app; reflexivity).
  pose proof (dispatch_settled toLocaleDateString e w A) as Hd.
  cbn zeta in Hd. fold d in Hd.
  destruct Hd as [Es | (k & r & Aw & Es & Rd)].
  - rewrite Es. split; [split; [exact ND|] | lia].
    intros k Hk. specialize (B k Hk). lia.
  - destruct (awaiting_fresh w k r Aw) as [Fresh Bound].
    destruct (settle_requests d Rd) as (m' & Em' & HL & _).
    assert (m' = m) as -> by (rewrite Em in Em'; now apply app_inv_head in Em').
    assert (1 <= List.length m) by (destruct m; [contradiction | cbn; lia]).
    rewrite Es. cbn [List.length].
    split; [split; [now constructor|] | lia].
    intros j [<- | Hj]; [lia | specialize (B j Hj); lia].
Qed.

(** X10. The page never stops fetching.  At every moment the settled
    requests are distinct requests of the log, and at least four requests
    are still in flight: each answer that arrives causes a render, and
    with it at least one new request, so the number in flight never
    falls below the four that mounting sends. *)
Theorem requests_stay_in_flight
  (toLocaleDateString : float -> string) (events : list Event) :
  let w := run toLocaleDateString events in
  NoDup (settled w)
  /\ (forall k, In k (settled w) -> k < List.length (requests w))
  /\ 4 <= List.length (requests w) - List.length (settled w).
Proof.
  cbn zeta.
  enough (let w := run toLocaleDateString events in
          atRest w /\ logSound w
          /\ 4 <= List.length (requests w) - List.length (settled w)) as (_ & [ND B] & C)
    by auto.
  unfold run. rewrite <- fold_left_rev_right.
  induction (rev events) as [|e es IH]; cbn zeta; simpl fold_right.
  - split; [repeat split|]. split; [|cbn; lia].
    split; [constructor | intros k []].
  - destruct IH as (A & Lg & C).
    destruct (handle_log toLocaleDateString e _ A Lg) as [Lg' C'].
    split; [now apply handle_atRest|]. split; [exact Lg' | lia].
Qed.

(** ** Answers that cross *)

Lemma nth_error_handle toLocaleDateString e w k r :
  nth_error (requests w) k = Some r ->
  nth_error (requests (handle toLocaleDateString e w)) k = Some r.
Proof.
  intros H. unfold handle. apply nth_error_settle.
  destruct (dispatch_requests toLocaleDateString e w) as [l ->].
  rewrite nth_error_app1; [exact H | apply nth_error_Some; congruence].
Qed.

(** A request other than the one an answer settles stays pending. *)
Lemma awaiting_other toLocaleDateString e w k1 k2 r :
  (exists response, e = MarketsSettled k1 response)
  \/ (exists response, e = MarketChartSettled k1 response) ->
  k1 <> k2 -> awaiting w k2 = Some r ->
  awaiting (handle toLocaleDateString e w) k2 = Some r.
Proof.
  intros He Hne A. pose proof (awaiting_request _ _ _ A) as N.
  unfold awaiting in *.
  destruct (existsb (Nat.eqb k2) (settled w)) eqn:E; [discriminate|].
  rewrite (nth_error_handle toLocaleDateString e w k2 r N).
  assert (settled (handle toLocaleDateString e w) = settled w
          \/ settled (handle toLocaleDateString e w) = k1 :: settled w) as [-> | ->].
  { unfold handle.
    match goal with |- context [settle ?x] =>
      destruct (settle_untouched x) as (_ & _ & _ & _ & _ & _ & -> & _) end.
    destruct He as [[[d|] ->] | [[p|] ->]]; cbn [dispatch];
      match goal with |- context [awaiting ?w ?k] =>
        destruct (awaiting w k) as [[url|url]|] end;
      setters; split_ifs; auto. }
  - now rewrite E.
  - cbn [existsb]. rewrite E.
    assert ((k2 =? k1)%nat = false) as -> by (apply Nat.eqb_neq; congruence).
    reflexivity.
Qed.

Lemma listing_success toLocaleDateString w k url response_data :
  awaiting w k = Some (MarketsRequest url) ->
  cryptocurrencies
    (state (handle toLocaleDateString (MarketsSettled k (Fulfilled response_data)) w))
  = response_data.
Proof.
  intros A. unfold handle.
  match goal with |- context [settle ?x] =>
    destruct (settle_untouched x) as (-> & _) end.
  cbn [dispatch]. rewrite A. apply fetchCryptoData_try_assets.
Qed.

Lemma history_success toLocaleDateString w k url prices :
  awaiting w k = Some (MarketChartRequest url) ->
  let w' := handle toLocaleDateString (MarketChartSettled k (Fulfilled prices)) w in
  chartData (state w') = chartSeries toLocaleDateString prices
  /\ chartOrigin w' = Some k
  /\ selectedCrypto (state w') = selectedCrypto (state w).
Proof.
  intros A w'. subst w'. unfold handle.
  match goal with |- context [settle ?x] =>
    destruct (settle_untouched x) as (_ & -> & -> & _ & _ & _ & _ & ->) end.
  cbn [dispatch]. rewrite A. repeat split.
Qed.

(** X11. The last listing answer to arrive wins.  Of two pending listing
    requests, whichever is answered second supplies the asset set, also
    when it was sent first, and whatever currency either was sent for:
    nothing ties an answer to the request order or to the selection. *)
Theorem last_listing_answer_wins
  (toLocaleDateString : float -> string) (w : World) (k1 k2 : nat)
  (url1 url2 : string) (first second : list Cryptocurrency) :
  k1 <> k2 ->
  awaiting w k1 = Some (MarketsRequest url1) ->
  awaiting w k2 = Some (MarketsRequest url2) ->
  cryptocurrencies
    (state (handle toLocaleDateString (MarketsSettled k2 (Fulfilled second))
             (handle toLocaleDateString (MarketsSettled k1 (Fulfilled first)) w)))
  = second.
Proof.
  intros Hne A1 A2.
  apply (listing_success toLocaleDateString _ k2 url2).
  apply (awaiting_other toLocaleDateString _ w k1 k2); eauto.
Qed.

(** On the mounted page the listing requests are 0 and 2; request 2 is
    answered first, request 0 last, and the answer to request 0 stays. *)
Lemma last_listing_answer_wins_witness :
  awaiting mounted 2 = Some (MarketsRequest (marketsUrl USD))
  /\ awaiting mounted 0 = Some (MarketsRequest (marketsUrl USD))
  /\ cryptocurrencies
       (state (handle DateModel.enUS_UTC (MarketsSettled 0 (Fulfilled [bitcoin]))
                (handle DateModel.enUS_UTC
                   (MarketsSettled 2 (Fulfilled [bitcoin; ethereum])) mounted)))
     = [bitcoin].
Proof.
  split; [reflexivity | split; [reflexivity|]].
  apply (last_listing_answer_wins DateModel.enUS_UTC mounted 2 0
           (marketsUrl USD) (marketsUrl USD)); [discriminate | reflexivity | reflexivity].
Defined.

(** X12. The last history answer to arrive wins.  Of two pending history
    requests, whichever is answered second supplies the chart, also when
    it was sent first or for an asset or currency no longer selected. *)
Theorem last_history_answer_wins
  (toLocaleDateString : float -> string) (w : World) (k1 k2 : nat)
  (url1 url2 : string) (first second : list (float * float)) :
  k1 <> k2 ->
  awaiting w k1 = Some (MarketChartRequest url1) ->
  awaiting w k2 = Some (MarketChartRequest url2) ->
  let w' := handle toLocaleDateString (MarketChartSettled k2 (Fulfilled second))
              (handle toLocaleDateString (MarketChartSettled k1 (Fulfilled first)) w) in
  chartData (state w') = chartSeries toLocaleDateString second
  /\ chartOrigin w' = Some k2.
Proof.
  intros Hne A1 A2 w'. subst w'.
  destruct (history_success toLocaleDateString
              (handle toLocaleDateString (MarketChartSettled k1 (Fulfilled first)) w)
              k2 url2 second) as (Hc & Ho & _).
  - apply (awaiting_other toLocaleDateString _ w k1 k2); eauto.
  - split; assumption.
Qed.

Lemma last_history_answer_wins_witness :
  awaiting mounted 3 = Some (MarketChartRequest (marketChartUrl "bitcoin" USD))
  /\ awaiting mounted 1 = Some (MarketChartRequest (marketChartUrl "bitcoin" USD))
  /\ let w' := handle DateModel.enUS_UTC (MarketChartSettled 1 (Fulfilled week))
                 (handle DateModel.enUS_UTC (MarketChartSettled 3 (Fulfilled []))
                    mounted) in
     chartData (state w') = chartSeries DateModel.enUS_UTC week
     /\ chartOrigin w' = Some 1.
Proof.
  split; [reflexivity | split; [reflexivity|]].
  apply (last_history_answer_wins DateModel.enUS_UTC mounted 3 1
           (marketChartUrl "bitcoin" USD) (marketChartUrl "bitcoin" USD));
    [discriminate | reflexivity | reflexivity].
Defined.

(** X13. A history answer with no points hides the chart panel, whatever
    was on it; an answer with at least one point shows the panel when an
    asset is selected. *)
Theorem empty_history_hides_chart
  (toLocaleDateString : float -> string) (w : World) (k : nat) (url : string) :
  awaiting w k = Some (MarketChartRequest url) ->
  chartShown (state (handle toLocaleDateString (MarketChartSettled k (Fulfilled [])) w))
  = false
  /\ (forall point more,
        truthy (selectedCrypto (state w)) = true ->
        chartShown
          (state (handle toLocaleDateString
                    (MarketChartSettled k (Fulfilled (point :: more))) w))
        = true).
Proof.
  intros A. split.
  - destruct (history_success toLocaleDateString w k url [] A) as (Hc & _ & _).
    unfold chartShown. rewrite Hc. cbn. apply andb_false_r.
  - intros point more T.
    destruct (history_success toLocaleDateString w k url (point :: more) A)
      as (Hc & _ & Hs).
    unfold chartShown. rewrite Hc, Hs, T. reflexivity.
Qed.

Lemma empty_history_hides_chart_witness :
  let shown := run DateModel.enUS_UTC [MarketChartSettled 1 (Fulfilled week)] in
  chartShown (state shown) = true
  /\ awaiting shown 3 = Some (MarketChartRequest (marketChartUrl "bitcoin" USD))
  /\ chartShown
       (state (handle DateModel.enUS_UTC (MarketChartSettled 3 (Fulfilled [])) shown))
     = false.
Proof.
  cbn zeta.
  assert (awaiting (run DateModel.enUS_UTC [MarketChartSettled 1 (Fulfilled week)]) 3
          = Some (MarketChartRequest (marketChartUrl "bitcoin" USD))) as A
    by (vm_compute; reflexivity).
  split; [vm_compute; reflexivity | split; [exact A|]].
  exact (proj1 (empty_history_hides_chart DateModel.enUS_UTC _ 3 _ A)).
Defined.

(** ** Amounts, read back *)

Module ReadFacts.
Import Num NumRead NumFacts.

Lemma readFrom_acc d : forall p,
  readFrom (Npos p) (NilEmpty.string_of_uint d) = Npos (Pos.of_uint_acc d p).
Proof.
  induction d; intros p; cbn [NilEmpty.string_of_uint readFrom Pos.of_uint_acc];
    [reflexivity | ..];
    rewrite <- IHd; f_equal; unfold digitValue;
    match goal with |- context [(N_of_ascii ?c - 48)%N] =>
      let v := eval vm_compute in (N_of_ascii c - 48)%N in
      change (N_of_ascii c - 48)%N with v
    end; lia.
Qed.

Lemma readFrom_uint d : readDigits (NilEmpty.string_of_uint d) = Pos.of_uint d.
Proof.
  unfold readDigits.
  induction d; cbn [NilEmpty.string_of_uint readFrom Pos.of_uint];
    [reflexivity | exact IHd | ..];
    rewrite <- readFrom_acc; f_equal.
Qed.

(** Reading the digits of a number gives the number. *)
Lemma read_digitsOf n : readDigits (digitsOf n) = n.
Proof.
  unfold digitsOf. rewrite readFrom_uint.
  exact (DecimalN.Unsigned.of_to n).
Qed.

Lemma read_zeros k s : readDigits (zeros k ++ s) = readDigits s.
Proof. unfold readDigits. induction k; cbn; auto. Qed.

Lemma read_fixedParts f n a b : fixedParts f n = (a, b) -> readDigits (a ++ b) = n.
Proof.
  unfold fixedParts. intros E. injection E as <- <-.
  rewrite take_drop.
  destruct (length (digitsOf n) <=? f)%nat;
    now rewrite ?read_zeros, read_digitsOf.
Qed.



Lemma nearest_roundsTo m e f : roundsTo m e f (nearest m e f).
Proof.
  unfold roundsTo, nearest. cbn zeta.
  set (s := (10 ^ N.of_nat f)%N).
  destruct (Z.leb_spec 0 e) as [He | He].
  - replace (Z.to_N (- e)) with 0%N by lia.
    change (2 ^ 0)%N with 1%N. lia.
  - replace (Z.to_N e) with 0%N by lia.
    change (2 ^ 0)%N with 1%N.
    set (k := Z.to_N (- e)).
    assert (2 ^ k <> 0)%N as Hk by (apply N.pow_nonzero; discriminate).
    rewrite N.add_1_r, N.pow_succ_r'.
    set (P := (2 ^ k)%N) in *.
    set (X := (2 * N.pos m * s + P)%N).
    assert (2 * P <> 0)%N as HD by lia.
    pose proof (N.Div0.mul_div_le X (2 * P)) as Lo.
    pose proof (N.mul_succ_div_gt X (2 * P) HD) as Hi.
    set (q := (X / (2 * P))%N) in *. subst X. nia.
Qed.

End ReadFacts.

Module DecimalFacts.
Import Num NumRead.









End DecimalFacts.



(** X15. In its fixed range, the percentage text is the change rounded
    to the nearest hundredth, half way cases away from zero: its digits
    read as the integer nearest to a hundred times the magnitude. *)
Theorem changeText_is_nearest_hundredth
  (crypto : Cryptocurrency) (s : bool) (m : positive) (e : Z) :
  Prim2SF (price_change_percentage_24h crypto) = S754_finite s m e ->
  Num.inFixedRange (price_change_percentage_24h crypto) = true ->
  exists a b,
    changeText crypto = Num.Fixed ((if s then "-" else "") ++ a ++ "." ++ b)
    /\ length b = 2
    /\ NumRead.roundsTo m e 2 (NumRead.readDigits (a ++ b)).
Proof.
  intros E R. unfold changeText, Num.toFixed. unfold Num.inFixedRange in R.
  rewrite E in *. apply negb_true_iff in R. rewrite R.
  unfold Num.fixedNotation. cbn [Nat.eqb].
  destruct (Num.fixedParts 2 (Num.nearest m e 2)) as [a b] eqn:P.
  exists a, b.
  destruct (NumFacts.fixedParts_shape _ _ _ _ P) as (_ & _ & _ & Lb).
  split; [reflexivity|]. split; [exact Lb|].
  rewrite (ReadFacts.read_fixedParts _ _ _ _ P). apply ReadFacts.nearest_roundsTo.
Qed.

Lemma changeText_is_nearest_hundredth_witness :
  Prim2SF (price_change_percentage_24h ethereum) = S754_finite true 4503599627370496 (-53)
  /\ Num.inFixedRange (price_change_percentage_24h ethereum) = true
  /\ exists a b,
       changeText ethereum = Num.Fixed ("-" ++ a ++ "." ++ b)
       /\ length b = 2
       /\ NumRead.roundsTo 4503599627370496 (-53) 2 (NumRead.readDigits (a ++ b)).
Proof.
  split; [reflexivity | split; [reflexivity|]].
  exact (changeText_is_nearest_hundredth ethereum true 4503599627370496 (-53)
           eq_refl eq_refl).
Defined.

(** ** Sign and colour *)

(** X16. Colour and sign agree: for a change in the fixed range of
    [toFixed], the percentage is red exactly when its text starts with a
    minus sign.  (A change that rounds to ["-0.00"] is red; zero itself,
    of either sign, is written ["0.00"] and is green.) *)
Theorem red_exactly_when_minus (crypto : Cryptocurrency) :
  Num.inFixedRange (price_change_percentage_24h crypto) = true ->
  (changeClass crypto = "text-red-500"
   <-> exists body, changeText crypto = Num.Fixed ("-" ++ body)).
Proof.
  unfold changeClass, changeText, Num.inFixedRange, Num.toFixed.
  rewrite leb_spec. change (Prim2SF 0) with (S754_zero false).
  destruct (Prim2SF (price_change_percentage_24h crypto)) as [s|s| |s m e];
    try discriminate.
  - intros _. cbn. split; [discriminate|]. intros [body H]. discriminate H.
  - intros R. apply negb_true_iff in R. rewrite R.
    destruct s; cbn [SFleb SFcompare].
    + split; [|reflexivity]. intros _. eexists. reflexivity.
    + split; [discriminate|]. intros [body H]. exfalso.
      destruct (NumFacts.fixedNotation_shape 2 (Num.nearest m e 2)) as
        (a & b & E & Ha & Da & _); [lia|].
      injection H as H. cbn [append] in H. rewrite E in H.
      destruct a as [|c a]; [now apply Ha|].
      cbn in H, Da. injection H as -> _. discriminate Da.
Qed.

Lemma red_exactly_when_minus_witness :
  Num.inFixedRange (price_change_percentage_24h ethereum) = true
  /\ changeText ethereum = Num.Fixed "-0.50"
  /\ changeClass ethereum = "text-red-500".
Proof.
  split; [reflexivity | split; [reflexivity|]].
  apply (red_exactly_when_minus ethereum eq_refl).
  exists "0.50". reflexivity.
Defined.

(** ** Request addresses *)

Module UrlFacts.

Lemma append_inv_head (a b c : string) : a ++ b = a ++ c -> b = c.
Proof. induction a as [|x a IH]; simpl; [auto|]. intros H. injection H as H. auto. Qed.

(** Two texts with tails of equal length are equal part by part. *)
Lemma append_inv_tail (a1 a2 t1 t2 : string) :
  length t1 = length t2 -> a1 ++ t1 = a2 ++ t2 -> a1 = a2 /\ t1 = t2.
Proof.
  intros Ht. revert a2. induction a1 as [|x a1 IH]; intros [|y a2] H; simpl in H.
  - auto.
  - exfalso. apply (f_equal length) in H. simpl in H.
    rewrite NumFacts.length_app in H. lia.
  - exfalso. apply (f_equal length) in H. simpl in H.
    rewrite NumFacts.length_app in H. lia.
  - injection H as -> H. destruct (IH _ H) as [-> ->]. auto.
Qed.

End UrlFacts.

(** X18. A request address names one request: two listing addresses are
    equal only for the same currency, and two history addresses only for
    the same asset identifier and the same currency. *)
Theorem request_urls_identify
  (id1 id2 : string) (currency1 currency2 : Currency) :
  (marketsUrl currency1 = marketsUrl currency2 <-> currency1 = currency2)
  /\ (marketChartUrl id1 currency1 = marketChartUrl id2 currency2
      <-> id1 = id2 /\ currency1 = currency2).
Proof.
  split; (split; [|now (intros; repeat match goal with H : _ /\ _ |- _ => destruct H end; subst)]).
  - destruct currency1, currency2; intros H; try reflexivity; discriminate H.
  - unfold marketChartUrl. intros H. apply UrlFacts.append_inv_head in H.
    apply UrlFacts.append_inv_tail in H.
    + destruct H as [-> H]. split; [reflexivity|].
      destruct currency1, currency2; try reflexivity; discriminate H.
    + destruct currency1, currency2; reflexivity.
Qed.

(** ** Theme *)

Lemma afterThemes_last themes theme scales :
  ChartOptions.afterThemes (themes ++ [theme]) scales
  = ChartOptions.applyTheme theme (ChartOptions.afterThemes themes scales).
Proof. unfold ChartOptions.afterThemes. now rewrite fold_left_app. Qed.

Lemma afterThemes_x_grid themes scales :
  ChartOptions.grid (ChartOptions.x (ChartOptions.afterThemes themes scales))
  = ChartOptions.grid (ChartOptions.x scales).
Proof.
  revert scales. induction themes as [|d themes IH]; intros scales; [reflexivity|].
  unfold ChartOptions.afterThemes in *. cbn [fold_left]. now rewrite IH.
Qed.

(** X19. The chart colours follow the last theme only: however often the
    theme was switched before, the options after the effect has run for
    a theme are those of that theme applied to the declared options; in
    particular the vertical grid lines of the x axis stay hidden. *)
Theorem chart_colours_follow_last_theme (themes : list bool) (theme : bool) :
  ChartOptions.afterThemes (themes ++ [theme]) ChartOptions.initial
  = ChartOptions.applyTheme theme ChartOptions.initial
  /\ ChartOptions.grid (ChartOptions.x
       (ChartOptions.afterThemes (themes ++ [theme]) ChartOptions.initial))
     = Some {| ChartOptions.display := Some false; ChartOptions.color := None |}.
Proof.
  split.
  - rewrite afterThemes_last. unfold ChartOptions.applyTheme.
    now rewrite afterThemes_x_grid.
  - now rewrite afterThemes_x_grid.
Qed.

(** ** The render between a handler and the effects *)

Lemma banner_of_message s text :
  message s = text ->
  banner s = if String.eqb text "" then None
             else Some (if Str.includes text "Failed" then "bg-red-500" else "bg-green-500").
Proof. intros <-. reflexivity. Qed.

(** X20. At the render that follows a handler, before the effects run,
    the banner is red exactly when the event was the failure of a pending
    listing or history request, green exactly when it was the success of
    a pending listing request, and absent after every other event, the
    success of a history request included. *)
Theorem banner_after_each_event
  (toLocaleDateString : float -> string) (events : list Event) (e : Event) :
  let w := run toLocaleDateString events in
  banner (state (dispatch toLocaleDateString e w)) = bannerDue e w.
Proof.
  cbn zeta. set (w := run toLocaleDateString events).
  destruct (run_atRest toLocaleDateString events) as (_ & _ & L & M). fold w in L, M.
  assert (forall d, message (state d) = "" -> banner (state d) = None) as B0
    by (intros d H; now rewrite (banner_of_message _ "" H)).
  destruct e as [| value | value | crypto | | k [response_data|] | k [prices|] ];
    cbn [dispatch bannerDue];
    try (destruct (awaiting w k) as [[url|url]|]);
    try (apply B0; exact M);
    try (apply B0; setters; split_ifs; exact M).
  - apply B0, fetchCryptoData_message.
  - now rewrite (banner_of_message _ _ (fetchCryptoData_try_message _ _)).
  - now rewrite (banner_of_message _ _ (fetchCryptoData_catch_message _)).
  - now rewrite (banner_of_message _ _ (fetchChartData_catch_message _)).
Qed.

(** X21. The cards drawn when a listing answer arrives are not those of
    the answer.  At the render that follows the answer, before the
    effects run, the page is not loading and draws the list as it stood:
    the filter of the asset set held before the answer.  The answer's
    records enter the list through the filter effect, in the same round
    in which the listing effect sets the page loading again. *)
Theorem cards_lag_one_answer
  (toLocaleDateString : float -> string) (events : list Event)
  (k : nat) (url : string) (response_data : list Cryptocurrency) :
  let w := run toLocaleDateString events in
  awaiting w k = Some (MarketsRequest url) ->
  let committed :=
    state (dispatch toLocaleDateString (MarketsSettled k (Fulfilled response_data)) w) in
  cryptocurrencies committed = response_data
  /\ listShown committed
     = Some (map (renderCard (selectedCurrency (state w)))
               (filtered (cryptocurrencies (state w)) (searchQuery (state w)))).
Proof.
  cbn zeta. set (w := run toLocaleDateString events). intros A.
  destruct (run_listInStep toLocaleDateString events) as [_ E]. fold w in E.
  cbn [dispatch]. rewrite A. split; [apply fetchCryptoData_try_assets|].
  rewrite <- E. unfold listShown. setters. split_tests; try reflexivity; congruence.
Qed.

(** On the mounted page the first listing answer brings two records and
    the page draws no card: the list is still the empty one. *)
Lemma cards_lag_one_answer_witness :
  awaiting (run DateModel.enUS_UTC []) 0 = Some (MarketsRequest (marketsUrl USD))
  /\ let committed :=
       state (dispatch DateModel.enUS_UTC
                (MarketsSettled 0 (Fulfilled [bitcoin; ethereum]))
                (run DateModel.enUS_UTC [])) in
     cryptocurrencies committed = [bitcoin; ethereum]
     /\ listShown committed = Some [].
Proof.
  split; [reflexivity|].
  exact (cards_lag_one_answer DateModel.enUS_UTC [] 0 (marketsUrl USD)
           [bitcoin; ethereum] eq_refl).
Defined.
